(** * A shallow embedding of the polymarket research bot (bot/ package).

    Modelling conventions.
    - Python [str] values are lists of ASCII characters ([pystr]).
    - Python floats are modelled by exact rationals [Q]; the one place where
      a transcendental function is used (the ranker's [math.log10]) and the
      ranker's composite score live in the reals [R].
    - A parsed JSON document ([json.loads] output) is a [JValue]; a Python
      dict is an association list with distinct keys.
    - Calls to [datetime.utcnow()] are an explicit argument [now]; datetimes
      are POSIX seconds (a [Q]). *)

From Stdlib Require Import List String Ascii Bool ZArith QArith Qabs Lia.
From Stdlib Require Import Reals Qreals Lra Permutation Sorting.
Import ListNotations.
Open Scope nat_scope.
Set Warnings "-register-all".

(* ------------------------------------------------------------------ *)
(** ** Python strings *)

Definition pystr := list ascii.

(** A string literal. *)
Definition lit (s : string) : pystr := list_ascii_of_string s.

Definition ascii_eqb (a b : ascii) : bool := if ascii_dec a b then true else false.

Fixpoint str_eqb (s t : pystr) : bool :=
  match s, t with
  | [], [] => true
  | a :: s', b :: t' => ascii_eqb a b && str_eqb s' t'
  | _, _ => false
  end.

(** [str.isspace] on ASCII: \t \n \v \f \r, the separators \x1c-\x1f and space. *)
Definition is_space (c : ascii) : bool :=
  let n := nat_of_ascii c in
  ((9 <=? n) && (n <=? 13)) || ((28 <=? n) && (n <=? 32)).

Fixpoint lstrip (s : pystr) : pystr :=
  match s with
  | [] => []
  | c :: s' => if is_space c then lstrip s' else s
  end.

Definition rstrip (s : pystr) : pystr := rev (lstrip (rev s)).

(** [str.strip()] *)
Definition strip (s : pystr) : pystr := rstrip (lstrip s).

(** [str.lower()] on ASCII. *)
Definition lower_char (c : ascii) : ascii :=
  let n := nat_of_ascii c in
  if (65 <=? n) && (n <=? 90) then ascii_of_nat (n + 32) else c.

Definition lower (s : pystr) : pystr := map lower_char s.

Fixpoint startswith (p s : pystr) : bool :=
  match p, s with
  | [], _ => true
  | a :: p', b :: s' => ascii_eqb a b && startswith p' s'
  | _ :: _, [] => false
  end.

Definition endswith (p s : pystr) : bool := startswith (rev p) (rev s).

(** [needle in hay] *)
Fixpoint contains (needle hay : pystr) : bool :=
  startswith needle hay ||
  match hay with
  | [] => false
  | _ :: hay' => contains needle hay'
  end.

(** [s.find(c)] for a one-character needle; [None] stands for [-1]. *)
Fixpoint find_char (c : ascii) (s : pystr) : option nat :=
  match s with
  | [] => None
  | d :: s' =>
      if ascii_eqb c d then Some 0
      else match find_char c s' with Some i => Some (S i) | None => None end
  end.

(** [s.rfind(c)] for a one-character needle. *)
Definition rfind_char (c : ascii) (s : pystr) : option nat :=
  match find_char c (rev s) with
  | Some i => Some (List.length s - 1 - i)%nat
  | None => None
  end.

(** [s[i:j]] for [0 <= i <= j <= len s]. *)
Definition slice (i j : nat) (s : pystr) : pystr := firstn (j - i) (skipn i s).

(* ------------------------------------------------------------------ *)
(** ** Parsed JSON values and Python's conversions on them *)

Inductive JValue : Type :=
| JNull
| JBool (b : bool)
| JNum (q : Q)
| JStr (s : pystr)
| JList (l : list JValue)
| JObj (kvs : list (pystr * JValue)).

Definition JDict := list (pystr * JValue).

(** [d.get(k)] / [k in d] *)
Fixpoint dict_get (d : JDict) (k : pystr) : option JValue :=
  match d with
  | [] => None
  | (k', v) :: d' => if str_eqb k k' then Some v else dict_get d' k
  end.

(** Python truthiness ([if item]). *)
Definition truthy (v : JValue) : bool :=
  match v with
  | JNull => false
  | JBool b => b
  | JNum q => negb (Qeq_bool q 0%Q)
  | JStr s => match s with [] => false | _ => true end
  | JList l => match l with [] => false | _ => true end
  | JObj o => match o with [] => false | _ => true end
  end.

(** The result of Python's [float(x)]. *)
Inductive float_result : Type :=
| FFinite (q : Q)
| FNonFinite          (* inf, -inf or nan *)
| FValueError
| FTypeError.

Definition digit_val (c : ascii) : option Z :=
  let n := nat_of_ascii c in
  if (48 <=? n) && (n <=? 57) then Some (Z.of_nat (n - 48)) else None.

(** Leading decimal digits: their value, their count, and the rest. *)
Fixpoint read_digits (acc : Z) (cnt : nat) (s : pystr) : Z * nat * pystr :=
  match s with
  | c :: s' =>
      match digit_val c with
      | Some d => read_digits (acc * 10 + d)%Z (S cnt) s'
      | None => (acc, cnt, s)
      end
  | [] => (acc, cnt, s)
  end.

(** An optional sign: [-1], [1] and the rest. *)
Definition read_sign (s : pystr) : Z * pystr :=
  match s with
  | c :: s' =>
      if ascii_eqb c "-"%char then (-1, s')%Z
      else if ascii_eqb c "+"%char then (1, s')%Z
      else (1%Z, s)
  | [] => (1%Z, s)
  end.

(** Python's [float(str)]: surrounding whitespace, a sign, then
    [inf]/[infinity]/[nan] in any case, or digits with an optional point and
    an optional exponent. Digit-group underscores ([1_000]) are not
    modelled (treated as a [ValueError]). *)
Definition parse_float_str (s : pystr) : float_result :=
  let '(sg, body) := read_sign (strip s) in
  let low := lower body in
  if str_eqb low (lit "inf") || str_eqb low (lit "infinity") || str_eqb low (lit "nan")
  then FNonFinite
  else
    let '(m1, n1, r1) := read_digits 0 0 body in
    let '(m2, n2, r2) :=
      match r1 with
      | c :: r => if ascii_eqb c "."%char then read_digits m1 0 r else (m1, 0%nat, r1)
      | [] => (m1, 0%nat, r1)
      end in
    if ((n1 + n2) =? 0)%nat then FValueError
    else
      let mant := (sg * m2)%Z in
      let build (e : Z) := FFinite ((mant # 1) * Qpower 10 (e - Z.of_nat n2))%Q in
      match r2 with
      | [] => build 0%Z
      | c :: r =>
          if ascii_eqb (lower_char c) "e"%char then
            let '(es, r') := read_sign r in
            let '(ev, ne, r'') := read_digits 0 0 r' in
            match r'' with
            | [] => if (ne =? 0)%nat then FValueError else build (es * ev)%Z
            | _ => FValueError
            end
          else FValueError
      end.

Definition py_float (v : JValue) : float_result :=
  match v with
  | JNull => FTypeError
  | JBool b => FFinite (if b then 1 else 0)%Q
  | JNum q => FFinite q
  | JStr s => parse_float_str s
  | JList _ | JObj _ => FTypeError
  end.


(* ------------------------------------------------------------------ *)
(** ** bot/models.py *)

(** [Market]; [end_date] is [None] or a POSIX timestamp. *)
Record Market : Type := mkMarket {
  m_id : pystr;
  m_title : pystr;
  m_description : pystr;
  m_probability : Q;
  m_liquidity : Q;
  m_end_date : option Q;
  m_slug : pystr;
  m_category : pystr;
  m_volume_24h : Q
}.

(** [Decision] *)
Record Decision : Type := mkDecision {
  d_market_id : pystr;
  d_estimated_probability : Q;
  d_confidence_level : Q;
  d_edge : Q;
  d_decision : pystr;
  d_key_risks : list pystr;
  d_reasoning_summary : pystr;
  d_created_at : Q
}.

(* ------------------------------------------------------------------ *)
(** ** Python numeric helpers on floats *)

(** [min(a, b)]: the first argument unless the second is smaller. *)
Definition py_min (a b : Q) : Q := if Qlt_le_dec b a then b else a.

(** [max(a, b)]: the first argument unless the second is larger. *)
Definition py_max (a b : Q) : Q := if Qlt_le_dec a b then b else a.

Definition Qleb (a b : Q) : bool := Qle_bool a b.
Definition Qltb (a b : Q) : bool := negb (Qle_bool b a).

(** [(end_date - now).total_seconds() / 86400.0] *)
Definition days_until (now end_date : Q) : Q := ((end_date - now) / 86400)%Q.

(* ------------------------------------------------------------------ *)
(** ** bot/filter_agent.py *)

Module Filter.
Local Open Scope Q_scope.

Record FilterDecision : Type := mkFilterDecision {
  market_id : pystr;
  research_worthy : bool;
  priority_level : pystr;
  (* reasoning_summary: a free-text rendering of the scores, not modelled *)
  info_dependency_score : Q;
  efficiency_risk_score : Q;
  randomness_risk_score : Q
}.

(** [sum(1 for keyword in kws if keyword in text)] *)
Definition count_in (kws : list string) (text : pystr) : nat :=
  List.length (filter (fun k => contains (lit k) text) kws).

(** [any(cat in text for cat in kws)] *)
Definition any_in (kws : list string) (text : pystr) : bool :=
  existsb (fun k => contains (lit k) text) kws.

Definition text3 (m : Market) : pystr :=
  lower (m_title m) ++ lit " " ++ lower (m_description m) ++ lit " " ++ lower (m_category m).

Definition high_info_keywords : list string :=
  ["election"; "vote"; "poll"; "candidate"; "president"; "senate"; "congress";
   "policy"; "regulation"; "fda"; "sec"; "approval"; "decision"; "announcement";
   "earnings"; "revenue"; "profit"; "quarterly"; "financial";
   "launch"; "release"; "product"; "feature"; "update";
   "trial"; "court"; "lawsuit"; "verdict"; "ruling";
   "economic"; "gdp"; "inflation"; "unemployment"; "rate";
   "sports"; "game"; "match"; "tournament"; "championship"]%string.

Definition low_info_keywords : list string :=
  ["coin"; "flip"; "dice"; "random"; "lottery"; "draw";
   "instant"; "immediate"; "second"; "minute"]%string.

Definition clamp01 (x : Q) : Q := py_max 0 (py_min 1 x).

(** [_score_information_dependence] *)
Definition score_information_dependence (now : Q) (m : Market) : Q :=
  let text := text3 m in
  let hi := count_in high_info_keywords text in
  let lo := count_in low_info_keywords text in
  let base_score :=
    if Nat.ltb 0 hi && Nat.eqb lo 0 then 0.8
    else if Nat.ltb 0 hi then 0.6
    else if Nat.ltb 0 lo then 0.2
    else 0.5 in
  let time_bonus :=
    match m_end_date m with
    | Some e =>
        if Qltb now e then
          let days := days_until now e in
          if Qleb 7 days then 0.1
          else if Qleb 3 days then 0.05
          else -0.1
        else -0.2
    | None => 0
    end in
  let prob_bonus :=
    if Qleb 0.1 (m_probability m) && Qleb (m_probability m) 0.9 then 0.05 else 0 in
  clamp01 (base_score + time_bonus + prob_bonus)%Q.

Definition high_access_keywords : list string :=
  ["official"; "announcement"; "press"; "release"; "statement";
   "public"; "government"; "federal"; "state"; "agency";
   "company"; "corporation"; "earnings"; "report";
   "election"; "poll"; "survey"; "data";
   "news"; "media"; "coverage"]%string.

Definition low_access_keywords : list string :=
  ["insider"; "private"; "confidential"; "secret";
   "internal"; "leak"; "rumor"; "speculation"]%string.

(** [_score_information_accessibility] *)
Definition score_information_accessibility (m : Market) : Q :=
  let text := text3 m in
  let hi := count_in high_access_keywords text in
  let lo := count_in low_access_keywords text in
  let base_score :=
    if Nat.ltb 0 hi && Nat.eqb lo 0 then 0.8
    else if Nat.ltb 0 hi then 0.6
    else if Nat.ltb 0 lo then 0.3
    else 0.5 in
  let liquidity_bonus :=
    if Qleb 10000 (m_liquidity m) then 0.1
    else if Qleb 5000 (m_liquidity m) then 0.05 else 0 in
  let volume_bonus :=
    if Qleb 1000 (m_volume_24h m) then 0.1
    else if Qleb 500 (m_volume_24h m) then 0.05 else 0 in
  clamp01 (base_score + liquidity_bonus + volume_bonus)%Q.

(** [_score_market_efficiency_risk] *)
Definition score_market_efficiency_risk (m : Market) : Q :=
  let l := m_liquidity m in
  let liquidity_risk :=
    if Qleb 50000 l then 0.8 else if Qleb 20000 l then 0.6
    else if Qleb 10000 l then 0.4 else if Qleb 5000 l then 0.3 else 0.2 in
  let v := m_volume_24h m in
  let volume_risk :=
    if Qleb 5000 v then 0.3 else if Qleb 2000 v then 0.2
    else if Qleb 1000 v then 0.1 else 0 in
  let category_lower := lower (m_category m) in
  let category_risk :=
    if any_in ["crypto"; "bitcoin"; "ethereum"]%string category_lower then 0.2
    else if any_in ["sports"; "nfl"; "nba"; "mlb"]%string category_lower then 0.3
    else 0.1 in
  let prob_risk :=
    if Qleb 0.05 (m_probability m) && Qleb (m_probability m) 0.95 then 0 else 0.2 in
  clamp01 (liquidity_risk * 0.40 + volume_risk * 0.30 + category_risk * 0.20
           + prob_risk * 0.10)%Q.

(** [_score_time_sufficiency] *)
Definition score_time_sufficiency (now : Q) (m : Market) : Q :=
  match m_end_date m with
  | None => 0.5
  | Some e =>
      if Qleb e now then 0
      else
        let days := days_until now e in
        if Qleb 7 days && Qleb days 30 then 1
        else if Qleb 3 days && Qltb days 7 then 0.6 + (days - 3) / 4 * 0.4
        else if Qltb 30 days && Qleb days 90 then 1 - (days - 30) / 60 * 0.5
        else if Qleb 1 days && Qltb days 3 then 0.3 + (days - 1) / 2 * 0.3
        else if Qltb 90 days then 0.4
        else 0.2
  end%Q.

Definition randomness_keywords : list string :=
  ["coin"; "flip"; "dice"; "roll"; "random"; "lottery"; "draw";
   "chance"; "luck"; "gamble"; "bet"; "instant"]%string.

(** [_score_randomness_risk] *)
Definition score_randomness_risk (now : Q) (m : Market) : Q :=
  let text := lower (m_title m) ++ lit " " ++ lower (m_description m) in
  let n := count_in randomness_keywords text in
  let base_risk := if Nat.leb 2 n then 0.8 else if Nat.eqb n 1 then 0.5 else 0.2 in
  let prob_risk :=
    if Qleb 0.45 (m_probability m) && Qleb (m_probability m) 0.55 then 0.2 else 0 in
  let time_risk :=
    match m_end_date m with
    | Some e =>
        if Qltb now e then
          let days := days_until now e in
          if Qltb days 1 then 0.3 else if Qltb days 3 then 0.1 else 0
        else 0
    | None => 0
    end in
  clamp01 (base_risk + prob_risk + time_risk)%Q.

(** The composite [research_score] of [evaluate_market]. *)
Definition research_score (now : Q) (m : Market) : Q :=
  (score_information_dependence now m * 0.30 +
   score_information_accessibility m * 0.25 +
   (1 - score_market_efficiency_risk m) * 0.20 +
   score_time_sufficiency now m * 0.15 +
   (1 - score_randomness_risk now m) * 0.10)%Q.

(** [evaluate_market]; the clock is read once, at [now]. *)
Definition evaluate_market (now : Q) (m : Market) : FilterDecision :=
  let s := research_score now m in
  let priority :=
    if Qleb 0.8 s then lit "high"
    else if Qleb 0.65 s then lit "medium"
    else lit "low" in
  {| market_id := m_id m;
     research_worthy := Qleb 0.6 s;
     priority_level := priority;
     info_dependency_score := score_information_dependence now m;
     efficiency_risk_score := score_market_efficiency_risk m;
     randomness_risk_score := score_randomness_risk now m |}.

(** The composite as the specification writes it, from the five sub-scores. *)
Definition documented_composite (now : Q) (m : Market) : Q :=
  0.30 * score_information_dependence now m
  + 0.25 * score_information_accessibility m
  + 0.20 * (1 - score_market_efficiency_risk m)
  + 0.15 * score_time_sufficiency now m
  + 0.10 * (1 - score_randomness_risk now m).

End Filter.

(* ------------------------------------------------------------------ *)
(** ** Boundary text extraction ([_extract_json_from_response]; the
    function is the same in bot/research_agent.py and bot/judge_agent.py) *)

Definition brace_open : ascii := "{"%char.
Definition brace_close : ascii := "}"%char.

(** The text after [strip()], the removal of a fence marker at the start and
    at the end, and a second [strip()]. *)
Definition unfence (text : pystr) : pystr :=
  let t := strip text in
  let t := if startswith (lit "```json") t then skipn 7 t
           else if startswith (lit "```") t then skipn 3 t
           else t in
  let t := if endswith (lit "```") t then firstn (List.length t - 3) t else t in
  strip t.

Definition extract_json_from_response (text : pystr) : option pystr :=
  let t := unfence text in
  let t :=
    match find_char brace_open t, rfind_char brace_close t with
    | Some first_brace, Some last_brace =>
        if first_brace <? last_brace then slice first_brace (last_brace + 1) t else t
    | _, _ => t
    end in
  match t with [] => None | _ => Some t end.

(** A "{" followed, somewhere later, by a "}". *)
Fixpoint has_brace_pair (s : pystr) : bool :=
  match s with
  | [] => false
  | c :: s' => (ascii_eqb c brace_open && existsb (ascii_eqb brace_close) s')
               || has_brace_pair s'
  end.

(* ------------------------------------------------------------------ *)
(** ** [str()] of a parsed JSON value, the evidence validator and the
    construction of a [Decision] *)

Section Stringify.

(** [str(v)] for numbers, lists and objects (Python's [repr] of an int,
    a float, a list or a dict) is left abstract. *)
Variable py_repr : JValue -> pystr.

Definition py_str (v : JValue) : pystr :=
  match v with
  | JStr s => s
  | JBool true => lit "True"
  | JBool false => lit "False"
  | JNull => lit "None"
  | _ => py_repr v
  end.

(** [[str(item).strip() for item in items if item][:n]] *)
Definition clean_items (n : nat) (items : list JValue) : list pystr :=
  firstn n (map (fun item => strip (py_str item)) (filter truthy items)).

(** [EvidenceDict] as produced by [_validate_evidence_schema]. *)
Record Evidence : Type := mkEvidence {
  recent_developments : list pystr;
  evidence_yes : list pystr;
  evidence_no : list pystr;
  official_signals : list pystr;
  timeline_constraints : list pystr;
  source_quality : pystr
}.

(** One list field: replaced only when present and a list. *)
Definition evidence_list_field (data : JDict) (key : string) : list pystr :=
  match dict_get data (lit key) with
  | Some (JList items) => clean_items 20 items
  | _ => []
  end.

Definition canonical_qualities : list pystr :=
  [lit "high"; lit "medium"; lit "low"; lit "unknown"].

Definition validate_evidence_schema (data : JDict) : Evidence :=
  {| recent_developments := evidence_list_field data "recent_developments";
     evidence_yes := evidence_list_field data "evidence_yes";
     evidence_no := evidence_list_field data "evidence_no";
     official_signals := evidence_list_field data "official_signals";
     timeline_constraints := evidence_list_field data "timeline_constraints";
     source_quality :=
       match dict_get data (lit "source_quality") with
       | Some v =>
           let quality := lower (strip (py_str v)) in
           if existsb (str_eqb quality) canonical_qualities then quality
           else lit "unknown"
       | None => lit "unknown"
       end |}.

(** [_create_decision]; [now] is the [datetime.utcnow()] of [created_at].
    [None] stands for an exception ([KeyError] or a failed [float()]); a
    non-finite float is out of the rational model and also gives [None]. *)
Definition create_decision (market : Market) (decision_data : JDict) (now : Q)
  : option Decision :=
  match option_map py_float (dict_get decision_data (lit "estimated_probability")),
        option_map py_float (dict_get decision_data (lit "confidence_level")) with
  | Some (FFinite estimated_prob), Some (FFinite confidence) =>
      let edge := (estimated_prob - m_probability market)%Q in
      let decision :=
        if Qltb 0.05 edge && Qltb 0.4 confidence then lit "yes"
        else if Qltb edge (-0.05) && Qltb 0.4 confidence then lit "no"
        else lit "pass" in
      let key_risks :=
        match dict_get decision_data (lit "key_risks") with
        | Some (JList risks) => clean_items 10 risks
        | _ => []
        end in
      let reasoning_summary :=
        firstn 500 (strip (py_str
          match dict_get decision_data (lit "reasoning_summary") with
          | Some v => v
          | None => JStr []
          end)) in
      Some (mkDecision (m_id market) estimated_prob confidence edge decision
              key_risks reasoning_summary now)
  | _, _ => None
  end.

End Stringify.

(** An [EvidenceDict] handed back to the validator as a dict. *)
Definition evidence_payload (e : Evidence) : JDict :=
  [(lit "recent_developments", JList (map JStr (recent_developments e)));
   (lit "evidence_yes", JList (map JStr (evidence_yes e)));
   (lit "evidence_no", JList (map JStr (evidence_no e)));
   (lit "official_signals", JList (map JStr (official_signals e)));
   (lit "timeline_constraints", JList (map JStr (timeline_constraints e)));
   (lit "source_quality", JStr (source_quality e))].

(** A canonical evidence list: at most 20 items, each a trimmed non-empty
    string. *)
Definition canonical_items (l : list pystr) : Prop :=
  List.length l <= 20 /\ Forall (fun s => strip s = s /\ s <> []) l.

Definition evidence_canonical (e : Evidence) : Prop :=
  canonical_items (recent_developments e) /\ canonical_items (evidence_yes e) /\
  canonical_items (evidence_no e) /\ canonical_items (official_signals e) /\
  canonical_items (timeline_constraints e) /\
  In (source_quality e) canonical_qualities.

(* ------------------------------------------------------------------ *)
(** ** bot/judge_agent.py: [_validate_decision_data] and one attempt *)

Module Judge.

Definition required_fields : list string :=
  ["estimated_probability"; "confidence_level"; "key_risks"; "reasoning_summary"]%string.

(** [float(data[key])] followed by the range test [0.0 <= x <= 1.0]; a
    [ValueError]/[TypeError] and a non-finite value both fail. *)
Definition unit_interval_field (data : JDict) (key : string) : bool :=
  match dict_get data (lit key) with
  | Some v =>
      match py_float v with
      | FFinite q => Qleb 0 q && Qleb q 1
      | _ => false
      end
  | None => false
  end.

Definition validate_decision_data (data : JDict) : bool :=
  forallb (fun f => match dict_get data (lit f) with Some _ => true | None => false end)
    required_fields
  && unit_interval_field data "estimated_probability"
  && unit_interval_field data "confidence_level"
  && match dict_get data (lit "key_risks") with Some (JList _) => true | _ => false end
  && match dict_get data (lit "reasoning_summary") with Some (JStr _) => true | _ => false end.

(** One attempt of [judge_market] on a parsed response: the payload must be
    a JSON object ([_parse_and_validate_response]) that validates, and the
    decision is then built by [_create_decision]. *)
Definition judge_attempt (py_repr : JValue -> pystr) (market : Market)
  (payload : JValue) (now : Q) : option Decision :=
  match payload with
  | JObj data =>
      if validate_decision_data data then create_decision py_repr market data now
      else None
  | _ => None
  end.

End Judge.

(* ------------------------------------------------------------------ *)
(** ** bot/scanner.py: [_extract_probability], [_safe_float], [_parse_market] *)

Section Ingestion.

(** [str(v)] of a non-string value (see [py_str]). *)
Variable py_repr : JValue -> pystr.
(** [json.loads] on a string ([None]: [JSONDecodeError]). *)
Variable json_loads : pystr -> option JValue.
(** [_parse_end_date] on a string: [datetime.fromisoformat] and the three
    [strptime] formats, [None] when all fail. *)
Variable parse_datetime : pystr -> option Q.










End Ingestion.

(* ------------------------------------------------------------------ *)
(** ** The API loops of [research_market] and [judge_market] *)

Module Agents.

(** The [for attempt in range(1, max_retries + 1)] loop that both agents
    run. [attempt_result attempt] is what one attempt yields: [None] for an
    empty response, a response that fails to parse or validate, or an
    exception caught by the loop. Once the last attempt has failed the loop
    returns [None]. The sleeps between attempts do not change the result.
    The second component counts the API calls made. *)
Fixpoint retry_loop {A : Type} (attempt_result : nat -> option A)
    (max_retries attempt fuel : nat) : option A * nat :=
  match fuel with
  | 0 => (None, 0)
  | S fuel' =>
      match attempt_result attempt with
      | Some a => (Some a, 1)
      | None =>
          if attempt <? max_retries then
            let '(r, calls) := retry_loop attempt_result max_retries (S attempt) fuel' in
            (r, S calls)
          else (None, 1)
      end
  end.

(** [not response_text or not response_text.strip()] *)
Definition blank (text : pystr) : bool :=
  match strip text with [] => true | _ => false end.

Section Loops.

Variable py_repr : JValue -> pystr.
Variable json_loads : pystr -> option JValue.

(** research_agent.[_parse_and_validate_response] *)
Definition research_parse_and_validate (response_text : pystr) : option Evidence :=
  if blank response_text then None
  else match extract_json_from_response response_text with
       | None => None
       | Some cleaned_text =>
           match json_loads cleaned_text with
           | Some (JObj data) => Some (validate_evidence_schema py_repr data)
           | _ => None
           end
       end.

(** One attempt of [research_market]: the API's response at that attempt
    ([None]: the call returned nothing); an empty string is falsy. The
    returned [EvidenceDict] always has its six keys, so it is truthy. *)
Definition research_attempt (call_api : nat -> option pystr) (attempt : nat) : option Evidence :=
  match call_api attempt with
  | Some ((_ :: _) as response_text) => research_parse_and_validate response_text
  | _ => None
  end.

(** [research_market(market, max_retries)]; [api_key] is
    [Config.PERPLEXITY_API_KEY] being set. *)
Definition research_market (api_key : bool) (call_api : nat -> option pystr)
    (max_retries : nat) : option Evidence * nat :=
  if negb api_key then (None, 0)
  else retry_loop (research_attempt call_api) max_retries 1 max_retries.

(** judge_agent.[_parse_and_validate_response] *)
Definition judge_parse_and_validate (response_text : pystr) : option JDict :=
  if blank response_text then None
  else match extract_json_from_response response_text with
       | None => None
       | Some cleaned_text =>
           match json_loads cleaned_text with
           | Some (JObj data) => if Judge.validate_decision_data data then Some data else None
           | _ => None
           end
       end.

(** One attempt of [judge_market]; a validated dict is non-empty, hence
    truthy, and [_create_decision] runs on it ([None] would be an exception,
    caught by the loop). *)
Definition judge_attempt (market : Market) (now : Q) (call_api : nat -> option pystr)
    (attempt : nat) : option Decision :=
  match call_api attempt with
  | Some ((_ :: _) as response_text) =>
      match judge_parse_and_validate response_text with
      | Some decision_data => create_decision py_repr market decision_data now
      | None => None
      end
  | _ => None
  end.

(** [judge_market(market, evidence, max_retries)]; [api_key] is
    [Config.ANTHROPIC_API_KEY] being set. The evidence only enters the
    prompt, which [call_api] stands for. *)
Definition judge_market (api_key : bool) (market : Market) (now : Q)
    (call_api : nat -> option pystr) (max_retries : nat) : option Decision * nat :=
  if negb api_key then (None, 0)
  else retry_loop (judge_attempt market now call_api) max_retries 1 max_retries.

End Loops.

End Agents.

(* ------------------------------------------------------------------ *)
(** ** bot/ranker.py *)

(** Scores are Python floats; the ranker's [math.log10] is taken in [R], so
    its scores are real numbers. [datetime.utcnow()] is the instant [now]. *)
Module Ranker.
Local Open Scope R_scope.

Definition Rleb (x y : R) : bool := if Rle_dec x y then true else false.
Definition Rltb (x y : R) : bool := if Rlt_dec x y then true else false.

Definition log10 (x : R) : R := ln x / ln 10.

(** [RankedOpportunity]; the free-text [explanation] is not modelled. *)
Record RankedOpportunity : Type := mkRankedOpportunity {
  market : Market;
  decision : Decision;
  score : R;
  edge_score : R;
  confidence_score : R;
  liquidity_score : R;
  time_score : R
}.

Definition EDGE_WEIGHT : R := 0.40.
Definition CONFIDENCE_WEIGHT : R := 0.30.
Definition LIQUIDITY_WEIGHT : R := 0.20.
Definition TIME_WEIGHT : R := 0.10.

(** [_calculate_edge_score] *)
Definition calculate_edge_score (edge : Q) : R :=
  let abs_edge := Rabs (Q2R edge) in
  Rmin 1.0 (abs_edge / 0.20).

(** [_calculate_confidence_score] *)
Definition calculate_confidence_score (confidence : Q) : R :=
  Rmax 0.0 (Rmin 1.0 (Q2R confidence)).

(** [_calculate_liquidity_score]; for a positive argument [math.log10]
    raises nothing, so the [except] branch is unreachable. *)
Definition calculate_liquidity_score (liquidity : Q) : R :=
  if Qle_bool liquidity 0 then 0.0
  else let log_score := log10 (Q2R liquidity / 1000.0) / 2.0 in
       Rmax 0.0 (Rmin 1.0 log_score).

(** [_calculate_time_score]; a [datetime] is always truthy, so only a
    missing date takes the first branch. *)
Definition calculate_time_score (now : R) (end_date : option Q) : R :=
  match end_date with
  | None => 0.5
  | Some e =>
      if Rleb (Q2R e) now then 0.0 else
      let days := (Q2R e - now) / 86400.0 in
      if Rleb 7.0 days && Rleb days 30.0 then 1.0
      else if Rleb 1.0 days && Rltb days 7.0 then 0.5 + (days - 1.0) / 6.0 * 0.5
      else if Rltb 30.0 days && Rleb days 90.0 then 1.0 - (days - 30.0) / 60.0 * 0.5
      else 0.0
  end.

(** [markets[market_id]], the market dictionary as an association list. *)
Fixpoint lookup_market (markets : list (pystr * Market)) (k : pystr) : option Market :=
  match markets with
  | [] => None
  | (k', m) :: rest => if str_eqb k' k then Some m else lookup_market rest k
  end.

(** The body of the loop for a decision whose market was found. *)
Definition make_opportunity (now : R) (m : Market) (d : Decision) : RankedOpportunity :=
  let es := calculate_edge_score (d_edge d) in
  let cs := calculate_confidence_score (d_confidence_level d) in
  let ls := calculate_liquidity_score (m_liquidity m) in
  let ts := calculate_time_score now (m_end_date m) in
  let composite_score := es * EDGE_WEIGHT + cs * CONFIDENCE_WEIGHT +
                         ls * LIQUIDITY_WEIGHT + ts * TIME_WEIGHT in
  mkRankedOpportunity m d composite_score es cs ls ts.

(** The loop of [rank_opportunities], before sorting: the three [continue]
    tests in source order. *)
Fixpoint collect (now : R) (markets : list (pystr * Market)) (min_edge : Q)
    (decisions : list Decision) : list RankedOpportunity :=
  match decisions with
  | [] => []
  | d :: rest =>
      match lookup_market markets (d_market_id d) with
      | None => collect now markets min_edge rest
      | Some m =>
          if Qltb (Qabs (d_edge d)) min_edge then collect now markets min_edge rest
          else if str_eqb (d_decision d) (lit "pass") then collect now markets min_edge rest
          else make_opportunity now m d :: collect now markets min_edge rest
      end
  end.

(** [opportunities.sort(key=lambda x: x.score, reverse=True)]: Python's sort
    is stable, and a stable sort has one result, which insertion sort
    computes: [x] goes before the first element whose score is at most its
    own, so it stays ahead of the later elements of equal score. *)
Fixpoint insert_desc (x : RankedOpportunity) (l : list RankedOpportunity) :
    list RankedOpportunity :=
  match l with
  | [] => [x]
  | y :: l' => if Rleb (score y) (score x) then x :: y :: l' else y :: insert_desc x l'
  end.

Fixpoint sort_desc (l : list RankedOpportunity) : list RankedOpportunity :=
  match l with
  | [] => []
  | x :: l' => insert_desc x (sort_desc l')
  end.

Definition default_min_edge : Q := 5 # 100.

(** [rank_opportunities(decisions, markets, min_edge)] *)
Definition rank_opportunities (now : R) (decisions : list Decision)
    (markets : list (pystr * Market)) (min_edge : Q) : list RankedOpportunity :=
  sort_desc (collect now markets min_edge decisions).

End Ranker.

(* ------------------------------------------------------------------ *)
(** ** bot/ranker.py: [rank_opportunities_with_markets] *)

Module RankerLists.
Import Ranker.

(** [d[k] = v] on a dict: an existing key keeps its position and gets the
    new value, a new key is appended. *)
Fixpoint dict_set {V : Type} (d : list (pystr * V)) (k : pystr) (v : V) : list (pystr * V) :=
  match d with
  | [] => [(k, v)]
  | (k', v') :: d' => if str_eqb k' k then (k', v) :: d' else (k', v') :: dict_set d' k v
  end.

(** [{market.id: market for market in markets}] *)
Definition markets_dict (markets : list Market) : list (pystr * Market) :=
  fold_left (fun d m => dict_set d (m_id m) m) markets [].

(** [rank_opportunities_with_markets(decisions, markets)] *)
Definition rank_opportunities_with_markets (now : R) (decisions : list Decision)
    (markets : list Market) : list RankedOpportunity :=
  rank_opportunities now decisions (markets_dict markets) default_min_edge.

End RankerLists.

(* ------------------------------------------------------------------ *)
(** ** bot/reporter.py: the figures of [_generate_summary] *)

Module Reporter.
Import Ranker.

(** [lst[:n]] for an int [n]: a negative [n] counts from the end. *)
Definition py_slice_to {A : Type} (n : Z) (l : list A) : list A :=
  if (0 <=? n)%Z then firstn (Z.to_nat n) l
  else firstn (List.length l - Z.to_nat (- n)) l.



Section Summary.
(** [fl] rounds an exact result to a double: every float [+] and [/] of
    [_generate_summary] is rounded by it. *)
Variable fl : R -> R.




End Summary.

End Reporter.

(* ------------------------------------------------------------------ *)
(** ** bot/config.py and bot/main.py: the pipeline *)

Module Main.
Import Ranker RankerLists Reporter.

(** The fields of [Config] that the pipeline reads; the API keys as
    "is set". *)
Record Config : Type := mkConfig {
  ANTHROPIC_API_KEY : bool;
  PERPLEXITY_API_KEY : bool;
  MAX_MARKETS_TO_SCAN : Z;
  MAX_MARKETS_TO_RESEARCH : Z;
  MAX_MARKETS_TO_JUDGE : Z;
  MIN_LIQUIDITY_USD : Q;
  MIN_VOLUME_24H_USD : Q;
  MAX_DAYS_TO_RESOLUTION : Z;
  MIN_DAYS_TO_RESOLUTION : Z;
  CLAUDE_TEMPERATURE : Q;
  PERPLEXITY_TEMPERATURE : Q
}.

(** The defaults of [Config] when the environment sets the keys only. *)
Definition default_config : Config :=
  mkConfig true true 100 10 5 (1000 # 1) (500 # 1) 90 1 (3 # 10) (2 # 10).

(** [Config.validate()]: the error list; valid when it is empty. *)
Definition config_errors (c : Config) : list string :=
  (if ANTHROPIC_API_KEY c then [] else ["ANTHROPIC_API_KEY is required but not set"%string]) ++
  (if PERPLEXITY_API_KEY c then [] else ["PERPLEXITY_API_KEY is required but not set"%string]) ++
  (if (MAX_MARKETS_TO_SCAN c <? 1)%Z then ["MAX_MARKETS_TO_SCAN must be at least 1"%string] else []) ++
  (if (MAX_MARKETS_TO_RESEARCH c <? 1)%Z
   then ["MAX_MARKETS_TO_RESEARCH must be at least 1"%string] else []) ++
  (if Qltb (MIN_LIQUIDITY_USD c) 0 then ["MIN_LIQUIDITY_USD cannot be negative"%string] else []) ++
  (if Qltb (MIN_VOLUME_24H_USD c) 0 then ["MIN_VOLUME_24H_USD cannot be negative"%string] else []) ++
  (if (MAX_DAYS_TO_RESOLUTION c <? MIN_DAYS_TO_RESOLUTION c)%Z
   then ["MAX_DAYS_TO_RESOLUTION must be >= MIN_DAYS_TO_RESOLUTION"%string] else []) ++
  (if negb (Qleb 0 (CLAUDE_TEMPERATURE c) && Qleb (CLAUDE_TEMPERATURE c) 1)
   then ["CLAUDE_TEMPERATURE must be between 0.0 and 1.0"%string] else []) ++
  (if negb (Qleb 0 (PERPLEXITY_TEMPERATURE c) && Qleb (PERPLEXITY_TEMPERATURE c) 1)
   then ["PERPLEXITY_TEMPERATURE must be between 0.0 and 1.0"%string] else []).

Definition config_validate (c : Config) : bool * list string :=
  (Nat.eqb (List.length (config_errors c)) 0, config_errors c).

(** The loop body of [filter_markets]: [true] when the market is kept. A
    [datetime] is always truthy, so only a missing date takes the [else]. *)
Definition passes_basic_filter (c : Config) (now : Q) (m : Market) : bool :=
  if Qltb (m_liquidity m) (MIN_LIQUIDITY_USD c) then false
  else if Qltb (m_volume_24h m) (MIN_VOLUME_24H_USD c) then false
  else match m_end_date m with
       | Some e =>
           let days := days_until now e in
           if Qltb days (inject_Z (MIN_DAYS_TO_RESOLUTION c)) then false
           else if Qltb (inject_Z (MAX_DAYS_TO_RESOLUTION c)) days then false
           else true
       | None =>
           if (0 <? MIN_DAYS_TO_RESOLUTION c)%Z || (MAX_DAYS_TO_RESOLUTION c <? 999)%Z
           then false else true
       end.

(** [filter_markets(markets)]; the clock is read once, at [now]. *)
Fixpoint filter_markets (c : Config) (now : Q) (markets : list Market) : list Market :=
  match markets with
  | [] => []
  | m :: rest =>
      if passes_basic_filter c now m then m :: filter_markets c now rest
      else filter_markets c now rest
  end.

(** [{"high": 3, "medium": 2, "low": 1}.get(priority_level, 0)] *)
Definition priority_key (p : pystr) : nat :=
  if str_eqb p (lit "high") then 3
  else if str_eqb p (lit "medium") then 2
  else if str_eqb p (lit "low") then 1 else 0.

(** [research_worthy_markets.sort(key=priority, reverse=True)]: the stable
    descending sort, as insertion sort. *)
Fixpoint insert_by_priority (x : Market * Filter.FilterDecision)
    (l : list (Market * Filter.FilterDecision)) : list (Market * Filter.FilterDecision) :=
  match l with
  | [] => [x]
  | y :: l' =>
      if Nat.leb (priority_key (Filter.priority_level (snd y)))
                 (priority_key (Filter.priority_level (snd x)))
      then x :: y :: l' else y :: insert_by_priority x l'
  end.

Fixpoint sort_by_priority (l : list (Market * Filter.FilterDecision)) :
    list (Market * Filter.FilterDecision) :=
  match l with
  | [] => []
  | x :: l' => insert_by_priority x (sort_by_priority l')
  end.

(** Step 3: [research_results[market.id] = (market, evidence)] for each
    market whose research succeeded. *)
Definition collect_research (research : Market -> option Evidence)
    (markets_to_research : list Market) : list (pystr * (Market * Evidence)) :=
  fold_left (fun acc m =>
               match research m with
               | Some e => dict_set acc (m_id m) (m, e)
               | None => acc
               end) markets_to_research [].

(** Step 4: the decisions, and [markets_dict[market.id] = market] for each
    market judged. *)
Definition collect_decisions (judge : Market -> Evidence -> option Decision)
    (markets_to_judge : list (Market * Evidence)) :
    list Decision * list (pystr * Market) :=
  fold_left (fun '(decisions, markets_dict) '(m, e) =>
               match judge m e with
               | Some d => (decisions ++ [d], dict_set markets_dict (m_id m) m)
               | None => (decisions, markets_dict)
               end) markets_to_judge ([], []).

(** [run_pipeline()]. [fetched] is what [fetch_markets] returned;
    [research] and [judge] stand for [research_market] and [judge_market]
    (an exception they raise is caught and counts as [None]). Storage
    writes and notifications do not change the result. The clock is read
    once, at [now]. *)
Definition run_pipeline (c : Config) (now : Q) (fetched : list Market)
    (research : Market -> option Evidence)
    (judge : Market -> Evidence -> option Decision) : option (list RankedOpportunity) :=
  if negb (fst (config_validate c)) then None else
  match fetched with
  | [] => None
  | _ =>
  match filter_markets c now fetched with
  | [] => None
  | filtered_markets =>
  let research_worthy_markets :=
    filter (fun p => Filter.research_worthy (snd p))
      (map (fun m => (m, Filter.evaluate_market now m)) filtered_markets) in
  match research_worthy_markets with
  | [] => None
  | _ =>
  let markets_to_research :=
    map fst (py_slice_to (MAX_MARKETS_TO_RESEARCH c) (sort_by_priority research_worthy_markets)) in
  match collect_research research markets_to_research with
  | [] => None
  | research_results =>
  let markets_to_judge := py_slice_to (MAX_MARKETS_TO_JUDGE c) (map snd research_results) in
  let '(decisions, markets_dict) := collect_decisions judge markets_to_judge in
  match decisions with
  | [] => None
  | _ =>
  match rank_opportunities (Q2R now) decisions markets_dict (5 # 100) with
  | [] => None
  | opportunities => Some opportunities
  end end end end end end.

End Main.

(* ------------------------------------------------------------------ *)
(** ** bot/scheduler.py: the single-flight lock *)

Module Sched.

(** The scheduler's fields, with [_execution_lock] as a flag, and a ghost
    flag [tick_active] that records whether a tick is inside its body. *)
Record Scheduler : Type := mkScheduler {
  is_running : bool;
  has_pipeline_function : bool;
  lock_held : bool;
  tick_active : bool
}.

Definition set_lock (s : Scheduler) (held active : bool) : Scheduler :=
  mkScheduler (is_running s) (has_pipeline_function s) held active.

(** [self._execution_lock.acquire(blocking=False)]: the result and the new
    lock state. *)
Definition try_acquire (s : Scheduler) : Scheduler * bool :=
  if lock_held s then (s, false) else (set_lock s true (tick_active s), true).

(** How the pipeline call of a tick ends. *)
Inductive outcome : Type := Completed | Failed | Interrupted.

(** Entry of [_safe_execute_pipeline]: skipped ([false]) when the lock is
    held, otherwise the lock is taken and the body runs. *)
Definition tick_start (s : Scheduler) : Scheduler * bool :=
  let '(s', acquired) := try_acquire s in
  if acquired then (set_lock s' true true, true) else (s', false).

(** Exit of [_safe_execute_pipeline]: the [finally] clause releases the lock
    whatever the outcome (including a missing pipeline function). *)
Definition tick_end (o : outcome) (s : Scheduler) : Scheduler :=
  if tick_active s then set_lock s false false else s.

(** [is_job_running]: [not self._execution_lock.acquire(blocking=False)]. *)
Definition is_job_running (s : Scheduler) : Scheduler * bool :=
  let '(s', acquired) := try_acquire s in (s', negb acquired).

Record Status : Type := mkStatus {
  st_is_running : bool;
  st_has_pipeline_function : bool;
  st_job_running : bool
  (* next_run_time and interval_hours come from APScheduler and Config *)
}.

(** [get_status] *)
Definition get_status (s : Scheduler) : Scheduler * Status :=
  let '(s', running) := is_job_running s in
  (s', mkStatus (is_running s) (has_pipeline_function s) running).

(** A started scheduler with no tick in flight. *)
Definition started : Scheduler := mkScheduler true true false false.

End Sched.

(** The scheduler's lifecycle: [start], [stop] and the module-level
    [start_scheduler], [stop_scheduler] and [get_scheduler_status]. The
    APScheduler object [self.scheduler] is tracked by [aps] (not [None]);
    where APScheduler can raise, the outcome is an input. *)
Module SchedLife.
Import Sched.

Record Obj : Type := mkObj { core : Scheduler; aps : bool }.

(** [Scheduler()] *)
Definition fresh : Obj := mkObj (mkScheduler false false false false) false.

Definition set_running (s : Scheduler) (b : bool) : Scheduler :=
  mkScheduler b (has_pipeline_function s) (lock_held s) (tick_active s).

Definition set_pipeline_function (s : Scheduler) : Scheduler :=
  mkScheduler (is_running s) true (lock_held s) (tick_active s).

(** Where the [try] block of [start] ends: it completes, or it raises
    before or after [self.scheduler] is assigned. *)
Inductive start_outcome : Type := StartOk | RaiseBeforeAssign | RaiseAfterAssign.

(** [Scheduler.start(pipeline_function, interval_hours)]; [callable] is
    [callable(pipeline_function)] and [scan_interval] is
    [Config.SCAN_INTERVAL_HOURS]. *)
Definition start (s : Obj) (callable : bool) (interval_hours : option Z)
    (scan_interval : Z) (o : start_outcome) : Obj * bool :=
  if is_running (core s) then (s, false)
  else if negb callable then (s, false)
  else
    let s1 := mkObj (set_pipeline_function (core s)) (aps s) in
    let hours := match interval_hours with Some h => h | None => scan_interval end in
    if (hours <? 1)%Z then (s1, false)
    else match o with
         | StartOk => (mkObj (set_running (core s1) true) true, true)
         | RaiseBeforeAssign => (mkObj (set_running (core s1) false) (aps s1), false)
         | RaiseAfterAssign => (mkObj (set_running (core s1) false) true, false)
         end.

(** [Scheduler.stop(wait)]; [shutdown_ok] says whether
    [self.scheduler.shutdown] returns or raises. *)
Definition stop (s : Obj) (shutdown_ok : bool) : Obj * bool :=
  if negb (is_running (core s)) || negb (aps s) then (s, false)
  else if shutdown_ok then (mkObj (set_running (core s) false) false, true)
  else (s, false).

(** [start_scheduler]: the global instance is created on first use. *)
Definition start_scheduler (inst : option Obj) (callable : bool)
    (interval_hours : option Z) (scan_interval : Z) (o : start_outcome)
    : option Obj * bool :=
  let s := match inst with Some s => s | None => fresh end in
  let '(s', r) := start s callable interval_hours scan_interval o in (Some s', r).

(** [stop_scheduler] *)
Definition stop_scheduler (inst : option Obj) (shutdown_ok : bool)
    : option Obj * bool :=
  match inst with
  | None => (None, false)
  | Some s => let '(s', r) := stop s shutdown_ok in (Some s', r)
  end.

(** [get_scheduler_status] *)
Definition get_scheduler_status (inst : option Obj) : option Obj * Status :=
  match inst with
  | None => (None, mkStatus false false false)
  | Some s => let '(c, st) := get_status (core s) in (Some (mkObj c (aps s)), st)
  end.

End SchedLife.

(* ------------------------------------------------------------------ *)
(** ** bot/utils.py *)

Module Utils.
Local Open Scope Q_scope.

(** [clamp(value, min_value, max_value)]; [None] is the [ValueError]. *)
Definition clamp (value min_value max_value : Q) : option Q :=
  if Qltb max_value min_value then None
  else Some (py_max min_value (py_min value max_value)).

(** [calculate_edge(estimated_probability, market_probability)]; [None] is
    the [ValueError] raised for a probability outside [0.0, 1.0]. *)
Definition calculate_edge (estimated_probability market_probability : Q) : option Q :=
  if negb (Qleb 0 estimated_probability && Qleb estimated_probability 1) then None
  else if negb (Qleb 0 market_probability && Qleb market_probability 1) then None
  else Some (estimated_probability - market_probability).

Definition bracket_open : ascii := "["%char.
Definition bracket_close : ascii := "]"%char.

(** [safe_json_loads(text, default)] with [json.loads] as [json_loads]
    ([None]: the decode error). Python's [None] is [JNull], the value
    [json.loads] gives for [null]. *)
Definition safe_json_loads (json_loads : pystr -> option JValue) (text : pystr)
    (default : JValue) : JValue :=
  match text with
  | [] => default
  | _ =>
      let t := unfence text in
      let t :=
        match find_char brace_open t, find_char bracket_open t with
        | Some first_brace, None =>
            match rfind_char brace_close t with
            | Some last_brace =>
                if first_brace <? last_brace then slice first_brace (last_brace + 1) t else t
            | None => t
            end
        | Some first_brace, Some first_bracket =>
            if first_brace <? first_bracket then
              match rfind_char brace_close t with
              | Some last_brace =>
                  if first_brace <? last_brace then slice first_brace (last_brace + 1) t else t
              | None => t
              end
            else
              match rfind_char bracket_close t with
              | Some last_bracket =>
                  if first_bracket <? last_bracket
                  then slice first_bracket (last_bracket + 1) t else t
              | None => t
              end
        | None, Some first_bracket =>
            match rfind_char bracket_close t with
            | Some last_bracket =>
                if first_bracket <? last_bracket
                then slice first_bracket (last_bracket + 1) t else t
            | None => t
            end
        | None, None => t
        end in
      match t with
      | [] => default
      | _ => match json_loads t with Some v => v | None => default end
      end
  end%nat.


(** How a call of a [retry_with_backoff] wrapper ends: [func] returns, the
    last exception (raised by attempt [i]) propagates, [raise None] runs
    when no attempt was made ([max_retries < 0]), a [TypeError], or
    [time.sleep] raises in the [except] block after attempt [i] failed. *)
Inductive retry_outcome (A : Type) : Type :=
| Returned (a : A)
| Raised (attempt : nat)
| RaisedNone
| SleepRaised (attempt : nat).
Arguments Returned {A} a.
Arguments Raised {A} attempt.
Arguments RaisedNone {A}.
Arguments SleepRaised {A} attempt.

Section Backoff.
Context {A : Type}.
(** [func] at attempt [k]: its result, or [None] when it raises one of
    [exceptions]. *)
Variable func : nat -> option A.
(** The longest sleep [time.sleep] accepts: above it, it raises
    [OverflowError] (about 9.2e9 seconds in CPython, 2^63 nanoseconds). *)
Variable sleep_limit : Q.
Variables (max_retries : Z) (max_delay exponential_base : Q).

(** [time.sleep(delay)] returns normally: a negative delay raises
    [ValueError], one above [sleep_limit] [OverflowError]. *)
Definition sleep_ok (delay : Q) : bool := Qleb 0 delay && Qleb delay sleep_limit.

(** The [for attempt in range(max_retries + 1)] loop of [wrapper] from
    attempt [attempt] with [remaining] attempts left; it returns the outcome
    and the delays [time.sleep] completed, in order. *)
Fixpoint backoff_loop (attempt remaining : nat) (delay : Q) (last_exception : option nat)
    : retry_outcome A * list Q :=
  match remaining with
  | O => (match last_exception with Some i => Raised i | None => RaisedNone end, [])
  | S r =>
      match func attempt with
      | Some a => (Returned a, [])
      | None =>
          if (Z.of_nat attempt <? max_retries)%Z then
            if sleep_ok delay then
              let '(o, ds) := backoff_loop (S attempt) r
                                (py_min (delay * exponential_base) max_delay) (Some attempt) in
              (o, delay :: ds)
            else (SleepRaised attempt, [])
          else backoff_loop (S attempt) r delay (Some attempt)
      end
  end.

(** [retry_with_backoff(max_retries, initial_delay, max_delay,
    exponential_base)(func)(...)] *)
Definition retry_with_backoff (initial_delay : Q) : retry_outcome A * list Q :=
  backoff_loop 0 (Z.to_nat (max_retries + 1)) initial_delay None.

End Backoff.
End Utils.

(* ------------------------------------------------------------------ *)
(** ** bot/storage.py: the [markets] table *)

Module Storage.
Local Open Scope Q_scope.

(** A row of [markets]; [description], [end_date], [slug], [category] and
    [volume_24h] are nullable columns. *)
Record MarketRow : Type := mkMarketRow {
  r_id : pystr;
  r_title : pystr;
  r_description : option pystr;
  r_probability : Q;
  r_liquidity : Q;
  r_end_date : option pystr;
  r_slug : option pystr;
  r_category : option pystr;
  r_volume_24h : option Q;
  r_created_at : pystr;
  r_updated_at : pystr
}.

(** [SELECT ... FROM markets WHERE id = ?] with [fetchone]. *)
Fixpoint select_row (rows : list MarketRow) (k : pystr) : option MarketRow :=
  match rows with
  | [] => None
  | r :: rest => if str_eqb (r_id r) k then Some r else select_row rest k
  end.

(** [s or ""] *)
Definition str_or_empty (s : option pystr) : pystr :=
  match s with Some ((_ :: _) as t) => t | _ => [] end.

(** [v or 0.0] *)
Definition float_or_zero (v : option Q) : Q :=
  match v with Some x => if Qeq_bool x 0 then 0 else x | None => 0 end.

Section Rows.
(** [datetime.isoformat] and [datetime.fromisoformat] ([None] is its
    [ValueError]). *)
Variable isoformat : Q -> pystr.
Variable fromisoformat : pystr -> option Q.

(** [save_market]: [INSERT OR REPLACE] of the row, [created_at] being
    [COALESCE((SELECT created_at FROM markets WHERE id = ?), now)], read
    before the replacement. A database error (the [except] branch) is not
    modelled. *)
Definition save_market (rows : list MarketRow) (market : Market) (now : pystr)
    : list MarketRow :=
  let created_at :=
    match select_row rows (m_id market) with Some r => r_created_at r | None => now end in
  let row := mkMarketRow (m_id market) (m_title market) (Some (m_description market))
               (m_probability market) (m_liquidity market)
               (option_map isoformat (m_end_date market))
               (Some (m_slug market)) (Some (m_category market))
               (Some (m_volume_24h market)) created_at now in
  filter (fun r => negb (str_eqb (r_id r) (m_id market))) rows ++ [row].

(** [_row_to_market] *)
Definition row_to_market (r : MarketRow) : Market :=
  let end_date :=
    match r_end_date r with
    | Some ((_ :: _) as t) => fromisoformat t
    | _ => None
    end in
  mkMarket (r_id r) (r_title r) (str_or_empty (r_description r)) (r_probability r)
    (r_liquidity r) end_date (str_or_empty (r_slug r)) (str_or_empty (r_category r))
    (float_or_zero (r_volume_24h r)).

(** [get_market] *)
Definition get_market (rows : list MarketRow) (market_id : pystr) : option Market :=
  option_map row_to_market (select_row rows market_id).

End Rows.
End Storage.

(* ================================================================== *)
(** * Properties *)

Example py_float_string_example : py_float (JStr (lit " 0.5 ")) = FFinite (5 # 10).
Proof. reflexivity. Qed.

Example py_float_exponent_example : py_float (JStr (lit "-2.5e-1")) = FFinite (-25 # 100).
Proof. reflexivity. Qed.

Example py_float_bad_example : py_float (JStr (lit "abc")) = FValueError.
Proof. reflexivity. Qed.

Module FilterProofs.
Import Filter.
Local Open Scope Q_scope.

Lemma Qleb_iff (a b : Q) : Qleb a b = true <-> a <= b.
Proof. unfold Qleb. apply Qle_bool_iff. Qed.

Lemma research_score_eq (now : Q) (m : Market) :
  research_score now m == documented_composite now m.
Proof.
  unfold research_score, documented_composite.
  generalize (score_information_dependence now m) (score_information_accessibility m)
    (score_market_efficiency_risk m) (score_time_sufficiency now m)
    (score_randomness_risk now m).
  intros q1 q2 q3 q4 q5.
  rewrite (Qmult_comm q1), (Qmult_comm q2), (Qmult_comm (1 - q3)), (Qmult_comm q4),
    (Qmult_comm (1 - q5)).
  reflexivity.
Qed.

(** Regression fixture of the specification: an election market on crypto
    with probability 0.5, liquidity 60000, volume 6000, 20 days ahead. *)
Example filter_fixture_info_dependence :
  score_information_dependence 0
    (mkMarket (lit "m") (lit "Who wins the election?") [] 0.5 60000
       (Some (20 * 86400)) [] (lit "crypto") 6000) == 0.95.
Proof. vm_compute. reflexivity. Qed.

(** C1: [evaluate_market] computes the documented composite of the five
    sub-scores; [research_worthy] holds exactly when it is at least 0.6 and
    the priority is "high" from 0.8, "medium" on [0.65, 0.8), "low" below. *)
Theorem evaluate_market_composite_thresholds (now : Q) (m : Market) :
  let c := documented_composite now m in
  let d := evaluate_market now m in
  (research_score now m == c) /\
  (research_worthy d = true <-> 0.6 <= c) /\
  (priority_level d = lit "high" <-> 0.8 <= c) /\
  (priority_level d = lit "medium" <-> 0.65 <= c /\ c < 0.8) /\
  (priority_level d = lit "low" <-> c < 0.65).
Proof.
  intros c d. pose proof (research_score_eq now m) as E. fold c in E.
  subst d. unfold evaluate_market; cbn [research_worthy priority_level].
  set (s := research_score now m) in *.
  assert (K : forall t, t <= s <-> t <= c) by (intro t; rewrite E; reflexivity).
  assert (K' : forall t, s < t <-> c < t) by (intro t; rewrite E; reflexivity).
  split; [exact E|].
  split; [rewrite Qleb_iff; apply K|].
  destruct (Qleb 0.8 s) eqn:H8.
  - apply Qleb_iff, K in H8.
    split; [split; intro; [exact H8|reflexivity]|].
    split; [split; intro Hm; [discriminate|]|split; intro Hl; [discriminate|]].
    + destruct Hm as [_ Hlt]. exfalso. exact (Qlt_not_le _ _ Hlt H8).
    + exfalso. apply (Qlt_not_le _ _ Hl).
      apply Qle_trans with 0.8; [unfold Qle; simpl; lia|exact H8].
  - assert (L8 : c < 0.8).
    { apply Qnot_le_lt. intro Hc. apply K, Qleb_iff in Hc. congruence. }
    destruct (Qleb 0.65 s) eqn:H6.
    + apply Qleb_iff, K in H6.
      split; [split; intro Hh; [discriminate|exfalso; exact (Qlt_not_le _ _ L8 Hh)]|].
      split; [split; intro; [split; assumption|reflexivity]|].
      split; intro Hl; [discriminate|]. exfalso. exact (Qlt_not_le _ _ Hl H6).
    + assert (L6 : c < 0.65).
      { apply Qnot_le_lt. intro Hc. apply K, Qleb_iff in Hc. congruence. }
      split; [split; intro Hh; [discriminate|exfalso; exact (Qlt_not_le _ _ L8 Hh)]|].
      split; [split; intro Hm; [discriminate|]|split; intro; [exact L6|reflexivity]].
      destruct Hm as [Hm _]. exfalso. exact (Qlt_not_le _ _ L6 Hm).
Qed.

End FilterProofs.

Module ExtractionProofs.

Lemma ascii_eqb_true (a b : ascii) : ascii_eqb a b = true -> a = b.
Proof. unfold ascii_eqb. destruct (ascii_dec a b); congruence. Qed.

Lemma find_char_nth (c : ascii) (s : pystr) (i : nat) :
  find_char c s = Some i -> nth_error s i = Some c.
Proof.
  revert i. induction s as [|d s IH]; intros i H; simpl in H; [discriminate|].
  destruct (ascii_eqb c d) eqn:E.
  - injection H as <-. apply ascii_eqb_true in E. subst. reflexivity.
  - destruct (find_char c s) as [k|] eqn:F; [|discriminate].
    injection H as <-. simpl. apply IH. reflexivity.
Qed.

Lemma rfind_char_nth (c : ascii) (s : pystr) (j : nat) :
  rfind_char c s = Some j -> nth_error s j = Some c.
Proof.
  unfold rfind_char. destruct (find_char c (rev s)) as [k|] eqn:F; [|discriminate].
  intro H. injection H as <-. apply find_char_nth in F.
  rewrite nth_error_rev in F.
  destruct (Nat.ltb_spec k (List.length s)); [|discriminate].
  replace (List.length s - 1 - k) with (List.length s - S k) by lia. exact F.
Qed.

Lemma brace_positions_pair (s : pystr) (i j : nat) :
  nth_error s i = Some brace_open -> nth_error s j = Some brace_close -> i < j ->
  has_brace_pair s = true.
Proof.
  revert i j. induction s as [|c s IH]; intros i j Hi Hj Hlt.
  - destruct i; discriminate.
  - destruct j as [|j]; [lia|]. simpl.
    destruct i as [|i].
    + simpl in Hi. injection Hi as ->. simpl in Hj.
      assert (existsb (ascii_eqb brace_close) s = true) as ->.
      { apply existsb_exists. exists brace_close. split.
        - eapply nth_error_In. exact Hj.
        - unfold ascii_eqb. destruct (ascii_dec brace_close brace_close); congruence. }
      reflexivity.
    + simpl in Hi, Hj. rewrite (IH i j Hi Hj ltac:(lia)). apply orb_true_r.
Qed.

Lemma has_brace_pair_app_l (a u : pystr) :
  has_brace_pair u = true -> has_brace_pair (a ++ u) = true.
Proof.
  intro H. induction a as [|c a IH]; [exact H|]. simpl. rewrite IH. apply orb_true_r.
Qed.

Lemma has_brace_pair_app_r (u b : pystr) :
  has_brace_pair u = true -> has_brace_pair (u ++ b) = true.
Proof.
  induction u as [|c u IH]; simpl; intro H; [discriminate|].
  apply orb_true_iff in H as [H|H].
  - apply andb_true_iff in H as [H1 H2].
    rewrite H1, existsb_app, H2. reflexivity.
  - rewrite IH by exact H. apply orb_true_r.
Qed.

Lemma has_brace_pair_infix (a u b : pystr) :
  has_brace_pair u = true -> has_brace_pair (a ++ u ++ b) = true.
Proof. intro H. apply has_brace_pair_app_l, has_brace_pair_app_r, H. Qed.

Lemma infix_trans (s u v : pystr) :
  (exists a b, s = a ++ u ++ b) -> (exists a b, u = a ++ v ++ b) ->
  exists a b, s = a ++ v ++ b.
Proof.
  intros [a [b ->]] [a' [b' ->]]. exists (a ++ a'), (b' ++ b).
  now rewrite !app_assoc.
Qed.

Lemma lstrip_suffix (s : pystr) : exists a, s = a ++ lstrip s.
Proof.
  induction s as [|c s [a Ha]]; [exists []; reflexivity|]. simpl.
  destruct (is_space c).
  - exists (c :: a). simpl. congruence.
  - exists []. reflexivity.
Qed.

Lemma rstrip_prefix (s : pystr) : exists b, s = rstrip s ++ b.
Proof.
  destruct (lstrip_suffix (rev s)) as [a Ha]. exists (rev a).
  unfold rstrip. rewrite <- rev_app_distr, <- Ha, rev_involutive. reflexivity.
Qed.

Lemma strip_infix (s : pystr) : exists a b, s = a ++ strip s ++ b.
Proof.
  destruct (lstrip_suffix s) as [a Ha]. destruct (rstrip_prefix (lstrip s)) as [b Hb].
  exists a, b. unfold strip. rewrite <- Hb. exact Ha.
Qed.

Lemma skipn_infix (n : nat) (s : pystr) : exists a b, s = a ++ skipn n s ++ b.
Proof. exists (firstn n s), []. rewrite app_nil_r. symmetry. apply firstn_skipn. Qed.

Lemma firstn_infix (n : nat) (s : pystr) : exists a b, s = a ++ firstn n s ++ b.
Proof. exists [], (skipn n s). symmetry. apply firstn_skipn. Qed.

Lemma unfence_infix (t : pystr) : exists a b, t = a ++ unfence t ++ b.
Proof.
  unfold unfence.
  apply (infix_trans _ (strip t)); [apply strip_infix|].
  set (t1 := if startswith (lit "```json") (strip t) then skipn 7 (strip t)
             else if startswith (lit "```") (strip t) then skipn 3 (strip t)
             else strip t).
  apply (infix_trans _ t1).
  { subst t1. destruct (startswith (lit "```json") (strip t)); [apply skipn_infix|].
    destruct (startswith (lit "```") (strip t)); [apply skipn_infix|].
    exists [], []. rewrite app_nil_r. reflexivity. }
  set (t2 := if endswith (lit "```") t1 then firstn (List.length t1 - 3) t1 else t1).
  apply (infix_trans _ t2).
  { subst t2. destruct (endswith (lit "```") t1); [apply firstn_infix|].
    exists [], []. rewrite app_nil_r. reflexivity. }
  apply strip_infix.
Qed.

Lemma unfence_no_brace_pair (t : pystr) :
  has_brace_pair t = false -> has_brace_pair (unfence t) = false.
Proof.
  intro H. destruct (has_brace_pair (unfence t)) eqn:E; [|reflexivity].
  destruct (unfence_infix t) as [a [b Hab]].
  rewrite Hab, has_brace_pair_infix in H by exact E. discriminate.
Qed.

(** C8 (as amended): on raw text with no "{" followed later by "}", the
    extraction returns the de-fenced, stripped text itself, and fails only
    when that text is empty. *)
Theorem extract_json_without_brace_pair (t : pystr) :
  has_brace_pair t = false ->
  extract_json_from_response t =
    match unfence t with [] => None | _ :: _ => Some (unfence t) end.
Proof.
  intro H. apply unfence_no_brace_pair in H.
  unfold extract_json_from_response.
  set (u := unfence t) in *.
  destruct (find_char brace_open u) as [i|] eqn:Fi; [|reflexivity].
  destruct (rfind_char brace_close u) as [j|] eqn:Fj; [|reflexivity].
  destruct (Nat.ltb_spec i j) as [Hlt|Hge]; [|reflexivity].
  apply find_char_nth in Fi. apply rfind_char_nth in Fj.
  rewrite (brace_positions_pair u i j Fi Fj Hlt) in H. discriminate.
Qed.

Lemma extract_json_without_brace_pair_witness :
  has_brace_pair (lit "  no json here ") = false /\
  extract_json_from_response (lit "  no json here ") = Some (lit "no json here").
Proof.
  split; [reflexivity|].
  rewrite (extract_json_without_brace_pair (lit "  no json here ") eq_refl).
  reflexivity.
Defined.

(** C8, as stated, fails: a text without any brace is not rejected but
    returned (stripped) as the JSON candidate. *)
Lemma extract_json_no_brace_counterexample :
  has_brace_pair (lit "no json here") = false /\
  extract_json_from_response (lit "no json here") = Some (lit "no json here").
Proof. split; reflexivity. Qed.

Example extract_json_fenced_example :
  extract_json_from_response (lit "```json {x: 1} ```") = Some (lit "{x: 1}").
Proof. reflexivity. Qed.

End ExtractionProofs.

Module JudgeProofs.
Import Judge.
Local Open Scope Q_scope.

Lemma Qleb_true (a b : Q) : Qleb a b = true <-> a <= b.
Proof. unfold Qleb. apply Qle_bool_iff. Qed.

Lemma Qltb_true (a b : Q) : Qltb a b = true <-> a < b.
Proof.
  unfold Qltb. rewrite negb_true_iff. split; intro H.
  - apply Qnot_le_lt. intro H'. apply Qle_bool_iff in H'. congruence.
  - destruct (Qle_bool b a) eqn:E; [|reflexivity].
    apply Qle_bool_iff in E. exfalso. exact (Qlt_not_le _ _ H E).
Qed.

Lemma unit_interval_field_true (data : JDict) (key : string) :
  unit_interval_field data key = true <->
  exists v q, dict_get data (lit key) = Some v /\ py_float v = FFinite q /\
              0 <= q /\ q <= 1.
Proof.
  unfold unit_interval_field. split.
  - destruct (dict_get data (lit key)) as [v|]; [|discriminate].
    destruct (py_float v) as [q| | |] eqn:F; try discriminate.
    intro H. apply andb_true_iff in H as [H0 H1].
    apply Qleb_true in H0, H1. exists v, q. auto.
  - intros (v & q & -> & -> & H0 & H1).
    apply andb_true_iff. split; apply Qleb_true; assumption.
Qed.

(** The conditions of [_validate_decision_data], in words. *)
Lemma validate_decision_data_true (data : JDict) :
  validate_decision_data data = true <->
  (exists v q, dict_get data (lit "estimated_probability") = Some v /\
               py_float v = FFinite q /\ 0 <= q /\ q <= 1) /\
  (exists v q, dict_get data (lit "confidence_level") = Some v /\
               py_float v = FFinite q /\ 0 <= q /\ q <= 1) /\
  (exists l, dict_get data (lit "key_risks") = Some (JList l)) /\
  (exists s, dict_get data (lit "reasoning_summary") = Some (JStr s)).
Proof.
  unfold validate_decision_data, required_fields. cbn [forallb].
  rewrite <- !unit_interval_field_true. split.
  - intro H. repeat (apply andb_true_iff in H as [H ?]).
    repeat split; try assumption.
    + destruct (dict_get data (lit "key_risks")) as [[]|]; try discriminate. eauto.
    + destruct (dict_get data (lit "reasoning_summary")) as [[]|]; try discriminate. eauto.
  - intros (He & Hc & [l Hl] & [s Hs]).
    pose proof He as He'. pose proof Hc as Hc'.
    apply unit_interval_field_true in He' as (v1 & q1 & E1 & _).
    apply unit_interval_field_true in Hc' as (v2 & q2 & E2 & _).
    rewrite E1, E2, Hl, Hs, He, Hc. reflexivity.
Qed.

(** C2: on a payload that passed validation, the built [Decision] carries the
    payload's two numbers, [edge = estimated_probability - market.probability],
    and the recommendation is "yes" exactly when [edge > 0.05] and
    [confidence > 0.4], "no" exactly when [edge < -0.05] and
    [confidence > 0.4], and "pass" otherwise. *)
Theorem create_decision_edge_recommendation (py_repr : JValue -> pystr)
  (market : Market) (data : JDict) (now : Q) :
  validate_decision_data data = true ->
  exists dec,
    create_decision py_repr market data now = Some dec /\
    option_map py_float (dict_get data (lit "estimated_probability"))
      = Some (FFinite (d_estimated_probability dec)) /\
    option_map py_float (dict_get data (lit "confidence_level"))
      = Some (FFinite (d_confidence_level dec)) /\
    d_edge dec = d_estimated_probability dec - m_probability market /\
    (d_decision dec = lit "yes" <->
       0.05 < d_edge dec /\ 0.4 < d_confidence_level dec) /\
    (d_decision dec = lit "no" <->
       d_edge dec < -0.05 /\ 0.4 < d_confidence_level dec) /\
    (d_decision dec = lit "pass" <->
       ~ (0.05 < d_edge dec /\ 0.4 < d_confidence_level dec) /\
       ~ (d_edge dec < -0.05 /\ 0.4 < d_confidence_level dec)).
Proof.
  intro H. apply validate_decision_data_true in H
    as ((v1 & est & E1 & F1 & _) & (v2 & conf & E2 & F2 & _) & _).
  unfold create_decision. rewrite E1, E2. simpl option_map. rewrite F1, F2.
  eexists. split; [reflexivity|]. cbn [d_estimated_probability d_confidence_level
    d_edge d_decision].
  split; [reflexivity|]. split; [reflexivity|]. split; [reflexivity|].
  set (edge := est - m_probability market).
  destruct (Qltb 0.05 edge && Qltb 0.4 conf) eqn:Y.
  - apply andb_true_iff in Y as [Y1 Y2]. apply Qltb_true in Y1, Y2.
    split; [tauto|]. split; split; intro Hx; try discriminate; exfalso.
    + destruct Hx as [Hx _]. apply (Qlt_irrefl edge).
      apply Qlt_trans with (-0.05); [exact Hx|].
      apply Qlt_trans with 0.05; [reflexivity|exact Y1].
    + destruct Hx as [Hx _]. apply Hx. tauto.
  - assert (NY : ~ (0.05 < edge /\ 0.4 < conf)).
    { intros [Y1 Y2]. apply Qltb_true in Y1, Y2. rewrite Y1, Y2 in Y. discriminate. }
    destruct (Qltb edge (-0.05) && Qltb 0.4 conf) eqn:N.
    + apply andb_true_iff in N as [N1 N2]. apply Qltb_true in N1, N2.
      split; [split; intro Hx; [discriminate|contradiction]|].
      split; [tauto|]. split; intro Hx; [discriminate|]. exfalso. tauto.
    + assert (NN : ~ (edge < -0.05 /\ 0.4 < conf)).
      { intros [N1 N2]. apply Qltb_true in N1, N2. rewrite N1, N2 in N. discriminate. }
      split; [split; intro Hx; [discriminate|contradiction]|].
      split; [split; intro Hx; [discriminate|contradiction]|].
      split; intro; [split; assumption|reflexivity].
Qed.

Lemma create_decision_edge_recommendation_witness :
  validate_decision_data
    [(lit "estimated_probability", JNum 0.7); (lit "confidence_level", JNum 0.6);
     (lit "key_risks", JList []); (lit "reasoning_summary", JStr (lit "ok"))] = true /\
  exists dec,
    create_decision (fun _ => []) (mkMarket (lit "m") [] [] 0.5 0 None [] [] 0)
      [(lit "estimated_probability", JNum 0.7); (lit "confidence_level", JNum 0.6);
       (lit "key_risks", JList []); (lit "reasoning_summary", JStr (lit "ok"))] 0
    = Some dec.
Proof.
  split; [reflexivity|].
  destruct (create_decision_edge_recommendation (fun _ => [])
              (mkMarket (lit "m") [] [] 0.5 0 None [] [] 0)
              [(lit "estimated_probability", JNum 0.7); (lit "confidence_level", JNum 0.6);
               (lit "key_risks", JList []); (lit "reasoning_summary", JStr (lit "ok"))]
              0 eq_refl) as (dec & E & _).
  exists dec. exact E.
Defined.

(** C5 (as amended): validation succeeds exactly when the four fields are
    present, [float()] accepts [estimated_probability] and
    [confidence_level] (numbers, booleans and numeric strings alike) with a
    finite value in [0, 1], [key_risks] is a list and [reasoning_summary] is a
    string; when it fails, the attempt produces no [Decision]. *)
Theorem validate_decision_data_float_coercion (data : JDict) :
  (validate_decision_data data = true <->
   (exists v q, dict_get data (lit "estimated_probability") = Some v /\
                py_float v = FFinite q /\ 0 <= q /\ q <= 1) /\
   (exists v q, dict_get data (lit "confidence_level") = Some v /\
                py_float v = FFinite q /\ 0 <= q /\ q <= 1) /\
   (exists l, dict_get data (lit "key_risks") = Some (JList l)) /\
   (exists s, dict_get data (lit "reasoning_summary") = Some (JStr s))) /\
  (forall py_repr market now,
     validate_decision_data data = false ->
     judge_attempt py_repr market (JObj data) now = None).
Proof.
  split; [apply validate_decision_data_true|].
  intros py_repr market now H. unfold judge_attempt. rewrite H. reflexivity.
Qed.

(** C5, as stated, fails: a numeric string and a boolean where numbers are
    required pass validation, and the attempt yields a [Decision]. *)
Lemma validate_decision_data_string_counterexample :
  let data := [(lit "estimated_probability", JStr (lit "0.7"));
               (lit "confidence_level", JBool true);
               (lit "key_risks", JList []);
               (lit "reasoning_summary", JStr (lit "ok"))] in
  validate_decision_data data = true /\
  exists dec, judge_attempt (fun _ => []) (mkMarket (lit "m") [] [] 0.5 0 None [] [] 0)
                (JObj data) 0 = Some dec.
Proof. split; [reflexivity|]. eexists. reflexivity. Qed.

End JudgeProofs.

Module EvidenceProofs.

Lemma lstrip_hd (s : pystr) (c : ascii) :
  hd_error (lstrip s) = Some c -> is_space c = false.
Proof.
  induction s as [|d s IH]; simpl; [discriminate|].
  destruct (is_space d) eqn:E; [exact IH|]. intro H. injection H as <-. exact E.
Qed.

Lemma lstrip_id (s : pystr) :
  (forall c, hd_error s = Some c -> is_space c = false) -> lstrip s = s.
Proof.
  destruct s as [|c s]; [reflexivity|]. intro H. simpl. rewrite (H c eq_refl). reflexivity.
Qed.

Lemma lstrip_idem (s : pystr) : lstrip (lstrip s) = lstrip s.
Proof. apply lstrip_id. apply lstrip_hd. Qed.

Lemma strip_idem (s : pystr) : strip (strip s) = strip s.
Proof.
  unfold strip, rstrip.
  set (z := lstrip (rev (lstrip s))).
  assert (Hz : lstrip (rev z) = rev z).
  { apply lstrip_id. intros c Hc.
    destruct (ExtractionProofs.lstrip_suffix (rev (lstrip s))) as [a Ha].
    fold z in Ha. apply (lstrip_hd s).
    rewrite <- (rev_involutive (lstrip s)), Ha, rev_app_distr.
    destruct (rev z) as [|d r]; [discriminate|]. exact Hc. }
  rewrite Hz, rev_involutive. subst z. rewrite lstrip_idem. reflexivity.
Qed.

Lemma clean_items_canonical (py_repr : JValue -> pystr) (l : list pystr) :
  canonical_items l -> clean_items py_repr 20 (map JStr l) = l.
Proof.
  intros [Hlen Hall]. unfold clean_items.
  assert (E : map (fun item => strip (py_str py_repr item)) (filter truthy (map JStr l)) = l).
  { clear Hlen. induction Hall as [|s l [Hs Hne] _ IH]; [reflexivity|].
    simpl. destruct s as [|c s']; [contradiction|]. simpl.
    rewrite IH. simpl in Hs. rewrite Hs. reflexivity. }
  rewrite E. apply firstn_all2. exact Hlen.
Qed.

Lemma quality_canonical (q : pystr) :
  In q canonical_qualities ->
  lower (strip q) = q /\ existsb (str_eqb q) canonical_qualities = true.
Proof. intro H. repeat (destruct H as [<-|H]; [split; reflexivity|]). destruct H. Qed.

(** C10: the evidence validator is idempotent on canonical records, and a
    field missing from the payload always yields the empty list or
    "unknown". *)
Theorem validate_evidence_schema_idempotent (py_repr : JValue -> pystr) (e : Evidence) :
  evidence_canonical e ->
  validate_evidence_schema py_repr (evidence_payload e) = e /\
  (forall data,
     (dict_get data (lit "recent_developments") = None ->
        recent_developments (validate_evidence_schema py_repr data) = []) /\
     (dict_get data (lit "evidence_yes") = None ->
        evidence_yes (validate_evidence_schema py_repr data) = []) /\
     (dict_get data (lit "evidence_no") = None ->
        evidence_no (validate_evidence_schema py_repr data) = []) /\
     (dict_get data (lit "official_signals") = None ->
        official_signals (validate_evidence_schema py_repr data) = []) /\
     (dict_get data (lit "timeline_constraints") = None ->
        timeline_constraints (validate_evidence_schema py_repr data) = []) /\
     (dict_get data (lit "source_quality") = None ->
        source_quality (validate_evidence_schema py_repr data) = lit "unknown")).
Proof.
  intros (H1 & H2 & H3 & H4 & H5 & H6). split.
  - destruct e as [rd ey en os tc sq]. simpl in *.
    unfold validate_evidence_schema, evidence_list_field. simpl dict_get.
    destruct (quality_canonical sq H6) as [Q1 Q2].
    simpl py_str. rewrite Q1, Q2, !clean_items_canonical by assumption.
    reflexivity.
  - intro data. unfold validate_evidence_schema, evidence_list_field; simpl.
    repeat split; intro E; rewrite E; reflexivity.
Qed.

Lemma validate_evidence_schema_idempotent_witness :
  evidence_canonical (mkEvidence [lit "poll lead"] [] [] [] [] (lit "high")) /\
  validate_evidence_schema (fun _ => [])
    (evidence_payload (mkEvidence [lit "poll lead"] [] [] [] [] (lit "high")))
  = mkEvidence [lit "poll lead"] [] [] [] [] (lit "high").
Proof.
  assert (C : evidence_canonical (mkEvidence [lit "poll lead"] [] [] [] [] (lit "high"))).
  { unfold evidence_canonical, canonical_items; simpl.
    repeat split; repeat constructor; try discriminate; auto. }
  split; [exact C|].
  exact (proj1 (validate_evidence_schema_idempotent (fun _ => []) _ C)).
Defined.

Lemma clean_items_shape (py_repr : JValue -> pystr) (n : nat) (items : list JValue) :
  List.length (clean_items py_repr n items) <= n /\
  Forall (fun s => strip s = s) (clean_items py_repr n items).
Proof.
  unfold clean_items. split.
  - rewrite length_firstn. lia.
  - apply Forall_forall. intros x Hx.
    assert (Hx' : In x (map (fun item => strip (py_str py_repr item)) (filter truthy items))).
    { rewrite <- (firstn_skipn n). apply in_or_app. left. exact Hx. }
    apply in_map_iff in Hx' as (item & <- & _). apply strip_idem.
Qed.

Lemma evidence_list_field_shape (py_repr : JValue -> pystr) (data : JDict) (k : string) :
  List.length (evidence_list_field py_repr data k) <= 20 /\
  Forall (fun s => strip s = s) (evidence_list_field py_repr data k).
Proof.
  unfold evidence_list_field.
  destruct (dict_get data (lit k)) as [[]|]; try (split; [simpl; lia|constructor]).
  apply clean_items_shape.
Qed.

(** What the validator does guarantee for every payload: each list has at
    most 20 items, each item is trimmed, and the quality is canonical. *)
Lemma validate_evidence_schema_shape (py_repr : JValue -> pystr) (data : JDict) :
  let e := validate_evidence_schema py_repr data in
  Forall (fun l => List.length l <= 20 /\ Forall (fun s => strip s = s) l)
    [recent_developments e; evidence_yes e; evidence_no e; official_signals e;
     timeline_constraints e] /\
  In (source_quality e) canonical_qualities.
Proof.
  intro e. split.
  - repeat (constructor; [apply evidence_list_field_shape|]). constructor.
  - subst e. unfold validate_evidence_schema. cbn [source_quality].
    destruct (dict_get data (lit "source_quality")) as [v|]; [|simpl; tauto].
    set (q := lower (strip (py_str py_repr v))).
    destruct (existsb (str_eqb q) canonical_qualities) eqn:E; [|simpl; tauto].
    apply existsb_exists in E as (q' & Hin & Eq).
    enough (q = q') by congruence.
    clear Hin. revert q' Eq. induction q as [|a q IH]; intros [|b q'] Eq;
      simpl in Eq; try discriminate; [reflexivity|].
    apply andb_true_iff in Eq as [Ea Eq].
    rewrite (ExtractionProofs.ascii_eqb_true _ _ Ea), (IH q' Eq). reflexivity.
Qed.

(** C6 fails on a whitespace-only list item: the truthiness filter runs on
    the raw item, before [strip()], so the item survives as an empty string. *)
Theorem validate_evidence_schema_keeps_blank_item (py_repr : JValue -> pystr) :
  recent_developments
    (validate_evidence_schema py_repr
       [(lit "recent_developments", JList [JStr (lit "   ")])]) = [[]].
Proof. reflexivity. Qed.

End EvidenceProofs.

Module ScannerProofs.
Local Open Scope Q_scope.





End ScannerProofs.

Module SchedProofs.
Import Sched.

(** A tick that runs always gives the lock back, whatever its outcome. *)
Lemma tick_releases_lock (s s' : Scheduler) (o : outcome) :
  tick_start s = (s', true) -> lock_held (tick_end o s') = false /\
                               tick_active (tick_end o s') = false.
Proof.
  unfold tick_start, try_acquire. destruct (lock_held s); intro H; [discriminate|].
  injection H as <-. split; reflexivity.
Qed.

(** C9 fails: on a started scheduler with no tick in flight, a status query
    takes the free lock and never releases it, so the state changes and the
    next tick is skipped although it would have run without the query. *)
Theorem status_query_blocks_next_tick :
  let '(after_query, status) := get_status started in
  st_job_running status = false /\
  lock_held after_query = true /\ tick_active after_query = false /\
  snd (tick_start started) = true /\
  snd (tick_start after_query) = false /\
  fst (tick_start after_query) = after_query.
Proof. repeat split. Qed.

End SchedProofs.

Module RankerProofs.
Import Ranker.
Local Open Scope R_scope.

Lemma str_eqb_eq (s t : pystr) : str_eqb s t = true -> s = t.
Proof.
  revert t. induction s as [|a s IH]; intros [|b t]; simpl; try discriminate; auto.
  intro H. apply andb_true_iff in H as [Ha Ht]. unfold ascii_eqb in Ha.
  destruct (ascii_dec a b); [subst|discriminate]. f_equal. now apply IH.
Qed.

Lemma str_eqb_refl (s : pystr) : str_eqb s s = true.
Proof.
  induction s as [|a s IH]; simpl; [reflexivity|]. rewrite IH.
  unfold ascii_eqb. destruct (ascii_dec a a); [reflexivity|contradiction].
Qed.

Definition score_is (r : R) (o : RankedOpportunity) : bool :=
  if Req_EM_T (score o) r then true else false.

Definition score_ge (a b : RankedOpportunity) : Prop := score b <= score a.

Lemma insert_desc_perm (x : RankedOpportunity) (l : list RankedOpportunity) :
  Permutation (insert_desc x l) (x :: l).
Proof.
  induction l as [|y l IH]; simpl; [reflexivity|].
  destruct (Rleb (score y) (score x)); [reflexivity|].
  rewrite IH. apply perm_swap.
Qed.

Lemma sort_desc_perm (l : list RankedOpportunity) : Permutation (sort_desc l) l.
Proof.
  induction l as [|x l IH]; simpl; [reflexivity|].
  rewrite insert_desc_perm. now constructor.
Qed.

Lemma Rleb_false (x y : R) : Rleb x y = false -> y < x.
Proof. unfold Rleb. destruct (Rle_dec x y); [discriminate|]. intros _. lra. Qed.

Lemma Rleb_true (x y : R) : Rleb x y = true -> x <= y.
Proof. unfold Rleb. destruct (Rle_dec x y); [auto|discriminate]. Qed.

Lemma insert_desc_hdrel (x y : RankedOpportunity) (l : list RankedOpportunity) :
  HdRel score_ge y l -> score_ge y x -> HdRel score_ge y (insert_desc x l).
Proof.
  intros Hy Hx. destruct l as [|z l]; simpl.
  - now constructor.
  - destruct (Rleb (score z) (score x)); constructor; [assumption|].
    now inversion Hy.
Qed.

Lemma insert_desc_sorted (x : RankedOpportunity) (l : list RankedOpportunity) :
  Sorted score_ge l -> Sorted score_ge (insert_desc x l).
Proof.
  induction l as [|y l IH]; intro Hs; simpl.
  - now repeat constructor.
  - destruct (Rleb (score y) (score x)) eqn:E.
    + constructor; [assumption|]. constructor. now apply Rleb_true.
    + apply Sorted_inv in Hs as [Hs Hh]. constructor; [now apply IH|].
      apply insert_desc_hdrel; [assumption|]. apply Rleb_false in E.
      unfold score_ge. lra.
Qed.

Lemma sort_desc_sorted (l : list RankedOpportunity) : Sorted score_ge (sort_desc l).
Proof.
  induction l as [|x l IH]; simpl; [constructor|]. now apply insert_desc_sorted.
Qed.

Lemma insert_desc_stable (r : R) (x : RankedOpportunity) (l : list RankedOpportunity) :
  filter (score_is r) (insert_desc x l) = filter (score_is r) (x :: l).
Proof.
  induction l as [|y l IH]; simpl; [reflexivity|].
  destruct (Rleb (score y) (score x)) eqn:E; [reflexivity|].
  apply Rleb_false in E. simpl. rewrite IH. simpl.
  unfold score_is. destruct (Req_EM_T (score x) r), (Req_EM_T (score y) r);
    try reflexivity. lra.
Qed.

Lemma sort_desc_stable (r : R) (l : list RankedOpportunity) :
  filter (score_is r) (sort_desc l) = filter (score_is r) l.
Proof.
  induction l as [|x l IH]; simpl; [reflexivity|].
  rewrite insert_desc_stable. simpl. now rewrite IH.
Qed.

Lemma collect_scores (now : R) markets min_edge ds :
  Forall (fun o =>
    score o = 0.40 * edge_score o + 0.30 * confidence_score o +
              0.20 * liquidity_score o + 0.10 * time_score o /\
    edge_score o = Rmin 1 (Rabs (Q2R (d_edge (decision o))) / 0.20) /\
    confidence_score o = Rmax 0 (Rmin 1 (Q2R (d_confidence_level (decision o)))) /\
    liquidity_score o =
      (if Qle_bool (m_liquidity (market o)) 0 then 0
       else Rmax 0 (Rmin 1 (log10 (Q2R (m_liquidity (market o)) / 1000) / 2))) /\
    time_score o = calculate_time_score now (m_end_date (market o)))
  (collect now markets min_edge ds).
Proof.
  induction ds as [|d ds IH]; cbn [collect]; [constructor|].
  destruct (lookup_market markets (d_market_id d)) as [m|]; [|assumption].
  destruct (Qltb (Qabs (d_edge d)) min_edge); [assumption|].
  destruct (str_eqb (d_decision d) (lit "pass")); [assumption|].
  constructor; [|assumption].
  unfold make_opportunity; simpl. unfold EDGE_WEIGHT, CONFIDENCE_WEIGHT,
    LIQUIDITY_WEIGHT, TIME_WEIGHT.
  unfold calculate_edge_score, calculate_confidence_score, calculate_liquidity_score.
  try replace 1.0 with 1 by lra; try replace 0.0 with 0 by lra;
  try replace 1000.0 with 1000 by lra; try replace 2.0 with 2 by lra.
  repeat split; [lra|reflexivity..].
Qed.

(** Claim C3: every accepted opportunity's score is
    0.40 * edge_score + 0.30 * confidence_score + 0.20 * liquidity_score
    + 0.10 * time_score. The edge score is min(1, |edge| / 0.20), the
    confidence score is the confidence clamped to [0, 1], and the liquidity
    score is log10(liquidity / 1000) / 2 clamped to [0, 1], or 0 when
    liquidity <= 0. The output holds exactly the accepted opportunities,
    sorted by score descending, and opportunities of equal score keep
    their input order. *)
Theorem rank_opportunities_score_and_order (now : R) (decisions : list Decision)
    (markets : list (pystr * Market)) (min_edge : Q) :
  let accepted := collect now markets min_edge decisions in
  let out := rank_opportunities now decisions markets min_edge in
  Forall (fun o =>
    score o = 0.40 * edge_score o + 0.30 * confidence_score o +
              0.20 * liquidity_score o + 0.10 * time_score o /\
    edge_score o = Rmin 1 (Rabs (Q2R (d_edge (decision o))) / 0.20) /\
    confidence_score o = Rmax 0 (Rmin 1 (Q2R (d_confidence_level (decision o)))) /\
    liquidity_score o =
      (if Qle_bool (m_liquidity (market o)) 0 then 0
       else Rmax 0 (Rmin 1 (log10 (Q2R (m_liquidity (market o)) / 1000) / 2))) /\
    time_score o = calculate_time_score now (m_end_date (market o))) out /\
  Permutation out accepted /\
  Sorted (fun a b => score b <= score a) out /\
  (forall r, filter (score_is r) out = filter (score_is r) accepted).
Proof.
  intros accepted out. unfold out, rank_opportunities. subst accepted.
  repeat split.
  - eapply Permutation_Forall; [symmetry; apply sort_desc_perm|].
    apply collect_scores.
  - apply sort_desc_perm.
  - apply sort_desc_sorted.
  - intro r. apply sort_desc_stable.
Qed.

Lemma collect_member (now : R) markets min_edge ds (d : Decision) :
  (exists o, In o (collect now markets min_edge ds) /\ decision o = d) <->
  In d ds /\ (exists m, lookup_market markets (d_market_id d) = Some m) /\
  ~ (Qabs (d_edge d) < min_edge)%Q /\ d_decision d <> lit "pass".
Proof.
  induction ds as [|d' ds IH]; cbn [collect In].
  - split; [intros (o & [] & _)|intros [[] _]].
  - destruct (lookup_market markets (d_market_id d')) as [m|] eqn:Hl.
    + destruct (Qltb (Qabs (d_edge d')) min_edge) eqn:He.
      * rewrite IH. split; [intros [? ?]; split; [right|]; assumption|].
        intros [[<-|Hin] Hrest]; [|now split].
        exfalso. destruct Hrest as (_ & Hlt & _). apply Hlt.
        unfold Qltb in He. apply negb_true_iff in He.
        apply Qnot_le_lt. intro Hle. apply Qle_bool_iff in Hle. congruence.
      * destruct (str_eqb (d_decision d') (lit "pass")) eqn:Ep.
        -- rewrite IH. split; [intros [? ?]; split; [right|]; assumption|].
           intros [[<-|Hin] Hrest]; [|now split].
           exfalso. destruct Hrest as (_ & _ & Hp). apply Hp.
           apply str_eqb_eq. assumption.
        -- split.
           ++ intros (o & [<-|Hin] & Ho).
              ** subst d. simpl. split; [now left|]. split; [now exists m|].
                 split.
                 --- unfold Qltb in He. apply negb_false_iff in He.
                     apply Qle_bool_iff in He. apply Qle_not_lt. assumption.
                 --- intro Hp. rewrite Hp in Ep. rewrite str_eqb_refl in Ep.
                     discriminate.
              ** destruct (proj1 IH (ex_intro _ o (conj Hin Ho))) as [Hd Hr].
                 split; [now right|assumption].
           ++ intros [[<-|Hin] Hrest].
              ** exists (make_opportunity now m d'). split; [now left|reflexivity].
              ** destruct (proj2 IH (conj Hin Hrest)) as (o & Ho & Hd).
                 exists o. split; [now right|assumption].
    + rewrite IH. split; [intros [? ?]; split; [right|]; assumption|].
      intros [[<-|Hin] Hrest]; [|now split].
      exfalso. destruct Hrest as ([m Hm] & _). congruence.
Qed.

(** Claim C4: a Decision given to the ranker yields a RankedOpportunity in
    the output exactly when its market is in the lookup, |edge| is not
    below min_edge, and its decision is not "pass". In particular, with the
    default min_edge of 0.05, a Decision with |edge| < 0.05 yields none,
    whatever its confidence level. *)
Theorem rank_opportunities_exclusion (now : R) (decisions : list Decision)
    (markets : list (pystr * Market)) (min_edge : Q) (d : Decision) :
  ((exists o, In o (rank_opportunities now decisions markets min_edge) /\
              decision o = d) <->
   In d decisions /\
   (exists m, lookup_market markets (d_market_id d) = Some m) /\
   ~ (Qabs (d_edge d) < min_edge)%Q /\ d_decision d <> lit "pass") /\
  ((Qabs (d_edge d) < default_min_edge)%Q ->
   forall o, In o (rank_opportunities now decisions markets default_min_edge) ->
   decision o <> d).
Proof.
  split.
  - rewrite <- collect_member. unfold rank_opportunities.
    split; intros (o & Ho & Hd); exists o; split; try assumption.
    + eapply Permutation_in; [apply sort_desc_perm|exact Ho].
    + eapply Permutation_in; [symmetry; apply sort_desc_perm|exact Ho].
  - intros Hlt o Ho Hd.
    assert (Hc : exists o, In o (collect now markets default_min_edge decisions) /\
                           decision o = d).
    { exists o. split; [|assumption].
      eapply Permutation_in; [apply sort_desc_perm|exact Ho]. }
    apply collect_member in Hc as (_ & _ & Hn & _). contradiction.
Qed.

Definition low_edge_market : Market :=
  mkMarket (lit "m1") (lit "t") (lit "d") (1 # 2) (50000 # 1) None
           (lit "s") (lit "c") (0 # 1).

Definition low_edge_decision : Decision :=
  mkDecision (lit "m1") (53 # 100) (99 # 100) (3 # 100) (lit "yes") [] (lit "r") (0 # 1).

Lemma rank_opportunities_exclusion_witness :
  (Qabs (d_edge low_edge_decision) < default_min_edge)%Q /\
  forall o, In o (rank_opportunities 0 [low_edge_decision]
                   [(lit "m1", low_edge_market)] default_min_edge) ->
            decision o <> low_edge_decision.
Proof.
  split; [vm_compute; reflexivity|].
  apply (proj2 (rank_opportunities_exclusion 0 [low_edge_decision]
                  [(lit "m1", low_edge_market)] default_min_edge low_edge_decision)).
  vm_compute. reflexivity.
Defined.

End RankerProofs.

Module UtilsProofs.
Import Utils.
Local Open Scope Q_scope.

Lemma py_min_le_r (a b : Q) : py_min a b <= b.
Proof. unfold py_min. destruct (Qlt_le_dec b a); [apply Qle_refl|assumption]. Qed.

Lemma py_max_ge_l (a b : Q) : a <= py_max a b.
Proof. unfold py_max. destruct (Qlt_le_dec a b); [apply Qlt_le_weak; assumption|apply Qle_refl]. Qed.

(** [utils.clamp] raises exactly when min_value > max_value. Otherwise
    its result lies in [min_value, max_value], and it is the value itself
    when the value is already in that range. *)
Theorem clamp_bounds (value lo hi : Q) :
  (clamp value lo hi = None <-> hi < lo) /\
  (lo <= hi -> exists r, clamp value lo hi = Some r /\ lo <= r <= hi /\
                         (lo <= value <= hi -> r == value)).
Proof.
  unfold clamp, Qltb. split.
  - destruct (Qle_bool lo hi) eqn:E; simpl; split; intro H; try discriminate.
    + apply Qle_bool_iff in E. exfalso. apply (Qlt_not_le _ _ H E).
    + apply Qnot_le_lt. intro Hle. apply Qle_bool_iff in Hle. congruence.
    + reflexivity.
  - intro Hle. pose proof Hle as E. apply Qle_bool_iff in E. rewrite E. simpl.
    eexists. split; [reflexivity|]. unfold py_max, py_min. split.
    + destruct (Qlt_le_dec hi value), (Qlt_le_dec lo _); split; try assumption;
        try apply Qle_refl; try (apply Qlt_le_weak; assumption).
    + intros [H1 H2]. destruct (Qlt_le_dec hi value) as [Hv|Hv].
      * exfalso. apply (Qlt_not_le _ _ Hv H2).
      * destruct (Qlt_le_dec lo value); [reflexivity|]. apply Qle_antisym; assumption.
Qed.

Lemma clamp_bounds_witness :
  (0 <= 1) /\ exists r, clamp (3 # 2) 0 1 = Some r /\ 0 <= r <= 1 /\
                        (0 <= 3 # 2 <= 1 -> r == 3 # 2).
Proof.
  split; [vm_compute; discriminate|]. apply (proj2 (clamp_bounds (3 # 2) 0 1)).
  vm_compute. discriminate.
Defined.

(** [utils.calculate_edge] raises exactly when a probability lies outside
    [0, 1]. Otherwise it returns estimated - market, which lies in
    [-1, 1]. *)
Theorem calculate_edge_range (e m : Q) :
  (calculate_edge e m = None <-> ~ (0 <= e <= 1 /\ 0 <= m <= 1)) /\
  (forall r, calculate_edge e m = Some r -> r == e - m /\ -1 <= r <= 1).
Proof.
  unfold calculate_edge, Qleb.
  destruct (Qle_bool 0 e) eqn:E1, (Qle_bool e 1) eqn:E2,
           (Qle_bool 0 m) eqn:E3, (Qle_bool m 1) eqn:E4; simpl;
    repeat match goal with
    | H : Qle_bool _ _ = true |- _ => apply Qle_bool_iff in H
    end;
    (split; [split; intro H; try discriminate; try reflexivity|]);
    try (intros r Hr; discriminate);
    try (exfalso; apply H; repeat split; assumption);
    try (intros [[? ?] [? ?]];
         match goal with H : Qle_bool ?a ?b = false |- _ =>
           assert (Qle_bool a b = true) by (apply Qle_bool_iff; assumption); congruence end).
  intros r Hr. injection Hr as <-. split; [reflexivity|].
  split.
  - apply (Qplus_le_l _ _ m). ring_simplify.
    apply (Qle_trans _ 0); [|assumption].
    apply (Qplus_le_l _ _ 1). ring_simplify. assumption.
  - apply (Qplus_le_l _ _ m). ring_simplify.
    apply (Qle_trans _ 1); [assumption|].
    rewrite Qplus_comm. rewrite <- (Qplus_0_r 1) at 1. apply Qplus_le_r. assumption.
Qed.

Lemma find_char_none (c : ascii) (s : pystr) : ~ In c s -> find_char c s = None.
Proof.
  induction s as [|d s IH]; intro H; simpl; [reflexivity|].
  unfold ascii_eqb. destruct (ascii_dec c d) as [->|_].
  - exfalso. apply H. now left.
  - rewrite IH; [reflexivity|]. intro Hin. apply H. now right.
Qed.

(** [utils.safe_json_loads] agrees with the agents' extraction on text
    with no "[": it returns the default when
    [_extract_json_from_response] finds nothing, and otherwise
    [json.loads] of the extracted text, or the default on a decode
    error. *)
Theorem safe_json_loads_matches_extraction
    (json_loads : pystr -> option JValue) (text : pystr) (default : JValue) :
  ~ In bracket_open text ->
  safe_json_loads json_loads text default =
  match extract_json_from_response text with
  | None => default
  | Some t => match json_loads t with Some v => v | None => default end
  end.
Proof.
  intro Hno. unfold safe_json_loads, extract_json_from_response.
  destruct text as [|c text']; [reflexivity|].
  rewrite (find_char_none bracket_open).
  - destruct (find_char brace_open (unfence (c :: text')));
      [destruct (rfind_char brace_close (unfence (c :: text'))); [destruct (_ <? _)|]|];
      match goal with |- context [match ?t with [] => _ | _ :: _ => _ end] =>
        destruct t end; reflexivity.
  - intro Hin. apply Hno. destruct (ExtractionProofs.unfence_infix (c :: text')) as [a [b Hab]].
    rewrite Hab. apply in_or_app. right. apply in_or_app. now left.
Qed.

Lemma safe_json_loads_matches_extraction_witness :
  ~ In bracket_open (lit "x {a} y") /\
  safe_json_loads (fun _ => Some JNull) (lit "x {a} y") (JBool true) =
  match extract_json_from_response (lit "x {a} y") with
  | None => JBool true
  | Some t => match (fun _ : pystr => Some JNull) t with Some v => v | None => JBool true end
  end.
Proof.
  split; [cbv; intuition discriminate|].
  apply safe_json_loads_matches_extraction. cbv. intuition discriminate.
Defined.

End UtilsProofs.

Module RankerExtraProofs.
Import Ranker RankerLists Reporter.
Local Open Scope R_scope.

Lemma clamp_unit_R (x : R) : 0 <= Rmax 0.0 (Rmin 1.0 x) <= 1.
Proof. unfold Rmax, Rmin. repeat destruct (Rle_dec _ _); lra. Qed.

Lemma edge_score_unit (e : Q) : 0 <= calculate_edge_score e <= 1.
Proof.
  unfold calculate_edge_score. pose proof (Rabs_pos (Q2R e)).
  unfold Rmin. destruct (Rle_dec _ _) as [H1|H1]; [lra|].
  split; [|lra]. unfold Rdiv. apply Rmult_le_pos; [assumption|]. lra.
Qed.

Lemma time_score_unit (now : R) (e : option Q) : 0 <= calculate_time_score now e <= 1.
Proof.
  unfold calculate_time_score. destruct e as [e|]; [|lra].
  unfold Rleb, Rltb.
  repeat match goal with
  | |- context [Rle_dec ?a ?b] => destruct (Rle_dec a b)
  | |- context [Rlt_dec ?a ?b] => destruct (Rlt_dec a b)
  end; simpl; lra.
Qed.

Lemma make_opportunity_unit (now : R) (m : Market) (d : Decision) :
  let o := make_opportunity now m d in
  0 <= edge_score o <= 1 /\ 0 <= confidence_score o <= 1 /\
  0 <= liquidity_score o <= 1 /\ 0 <= time_score o <= 1 /\ 0 <= score o <= 1.
Proof.
  cbn. pose proof (edge_score_unit (d_edge d)) as E.
  assert (C : 0 <= calculate_confidence_score (d_confidence_level d) <= 1)
    by apply clamp_unit_R.
  assert (L : 0 <= calculate_liquidity_score (m_liquidity m) <= 1).
  { unfold calculate_liquidity_score. destruct (Qle_bool _ _); [lra|apply clamp_unit_R]. }
  pose proof (time_score_unit now (m_end_date m)) as T.
  unfold EDGE_WEIGHT, CONFIDENCE_WEIGHT, LIQUIDITY_WEIGHT, TIME_WEIGHT.
  repeat split; lra.
Qed.

Lemma collect_shape (now : R) markets min_edge ds :
  Forall (fun o => o = make_opportunity now (market o) (decision o) /\
                   ~ (Qabs (d_edge (decision o)) < min_edge)%Q /\
                   lookup_market markets (d_market_id (decision o)) = Some (market o))
    (collect now markets min_edge ds).
Proof.
  induction ds as [|d ds IH]; cbn [collect]; [constructor|].
  destruct (lookup_market markets (d_market_id d)) as [m|] eqn:Hl; [|assumption].
  destruct (Qltb (Qabs (d_edge d)) min_edge) eqn:He; [assumption|].
  destruct (str_eqb (d_decision d) (lit "pass")); [assumption|].
  constructor; [|assumption]. cbn. split; [reflexivity|]. split; [|assumption].
  unfold Qltb in He. apply negb_false_iff, Qle_bool_iff in He. apply Qle_not_lt. exact He.
Qed.

Lemma rank_shape (now : R) ds markets min_edge :
  Forall (fun o => o = make_opportunity now (market o) (decision o) /\
                   ~ (Qabs (d_edge (decision o)) < min_edge)%Q /\
                   lookup_market markets (d_market_id (decision o)) = Some (market o))
    (rank_opportunities now ds markets min_edge).
Proof.
  unfold rank_opportunities. eapply Permutation_Forall.
  - symmetry. apply RankerProofs.sort_desc_perm.
  - apply collect_shape.
Qed.

(** Every opportunity [rank_opportunities] returns has its four component
    scores and its composite score in [0, 1]. *)
Theorem rank_opportunities_scores_unit (now : R) (decisions : list Decision)
    (markets : list (pystr * Market)) (min_edge : Q) :
  Forall (fun o =>
    0 <= edge_score o <= 1 /\ 0 <= confidence_score o <= 1 /\
    0 <= liquidity_score o <= 1 /\ 0 <= time_score o <= 1 /\ 0 <= score o <= 1)
    (rank_opportunities now decisions markets min_edge).
Proof.
  eapply Forall_impl; [|apply rank_shape]. intros o [Ho _].
  rewrite Ho. apply make_opportunity_unit.
Qed.

Lemma str_eqb_sym (a b : pystr) : str_eqb a b = str_eqb b a.
Proof.
  destruct (str_eqb a b) eqn:E.
  - apply RankerProofs.str_eqb_eq in E. subst. now rewrite RankerProofs.str_eqb_refl.
  - destruct (str_eqb b a) eqn:F; [|reflexivity].
    apply RankerProofs.str_eqb_eq in F. subst. now rewrite RankerProofs.str_eqb_refl in E.
Qed.

Lemma lookup_dict_set (d : list (pystr * Market)) (k k' : pystr) (v : Market) :
  lookup_market (dict_set d k v) k' =
  if str_eqb k k' then Some v else lookup_market d k'.
Proof.
  induction d as [|[k0 v0] d IH]; simpl; [reflexivity|].
  destruct (str_eqb k0 k) eqn:E.
  - apply RankerProofs.str_eqb_eq in E. subst k0. simpl. destruct (str_eqb k k'); reflexivity.
  - simpl. rewrite IH. destruct (str_eqb k0 k') eqn:F; [|reflexivity].
    apply RankerProofs.str_eqb_eq in F. subst k0.
    rewrite str_eqb_sym, E. reflexivity.
Qed.

Lemma find_app {A : Type} (f : A -> bool) (l1 l2 : list A) :
  find f (l1 ++ l2) = match find f l1 with Some x => Some x | None => find f l2 end.
Proof. induction l1 as [|x l1 IH]; simpl; [reflexivity|]. destruct (f x); auto. Qed.

Lemma lookup_fold (ms : list Market) (d : list (pystr * Market)) (k : pystr) :
  lookup_market (fold_left (fun d m => dict_set d (m_id m) m) ms d) k =
  match find (fun m => str_eqb (m_id m) k) (rev ms) with
  | Some m => Some m
  | None => lookup_market d k
  end.
Proof.
  revert d. induction ms as [|m ms IH]; intro d; simpl; [reflexivity|].
  rewrite IH, find_app. simpl. rewrite lookup_dict_set.
  destruct (find _ (rev ms)); [reflexivity|]. destruct (str_eqb (m_id m) k); reflexivity.
Qed.

Lemma lookup_map_rev (ms : list Market) (k : pystr) :
  lookup_market (map (fun m => (m_id m, m)) ms) k = find (fun m => str_eqb (m_id m) k) ms.
Proof.
  induction ms as [|m ms IH]; simpl; [reflexivity|]. rewrite IH. reflexivity.
Qed.

Lemma collect_ext (now : R) (a b : list (pystr * Market)) (min_edge : Q) ds :
  (forall k, lookup_market a k = lookup_market b k) ->
  collect now a min_edge ds = collect now b min_edge ds.
Proof.
  intro H. induction ds as [|d ds IH]; cbn [collect]; [reflexivity|].
  rewrite H, IH. reflexivity.
Qed.

(** In [rank_opportunities_with_markets] the dict built from the market
    list maps each id to the LAST market with that id. Ranking with it
    is ranking against the reversed list of (id, market) pairs, with the
    default min_edge 0.05. *)
Theorem rank_opportunities_with_markets_last_wins (now : R)
    (decisions : list Decision) (markets : list Market) :
  (forall k, lookup_market (markets_dict markets) k =
             find (fun m => str_eqb (m_id m) k) (rev markets)) /\
  rank_opportunities_with_markets now decisions markets =
  rank_opportunities now decisions (map (fun m => (m_id m, m)) (rev markets))
    default_min_edge.
Proof.
  assert (L : forall k, lookup_market (markets_dict markets) k =
                        find (fun m => str_eqb (m_id m) k) (rev markets)).
  { intro k. unfold markets_dict. rewrite lookup_fold.
    destruct (find _ (rev markets)); reflexivity. }
  split; [exact L|].
  unfold rank_opportunities_with_markets, rank_opportunities. f_equal.
  apply collect_ext. intro k. rewrite L, lookup_map_rev. reflexivity.
Qed.



End RankerExtraProofs.

Module AgentProofs.
Import Agents.
Local Open Scope Q_scope.

Lemma retry_loop_spec {A : Type} (g : nat -> option A) (max_retries attempt fuel : nat) :
  (1 <= attempt)%nat -> (attempt + fuel = max_retries + 1)%nat ->
  let '(r, calls) := retry_loop g max_retries attempt fuel in
  (calls <= fuel)%nat /\
  (forall i, (attempt <= i < attempt + calls - 1)%nat -> g i = None) /\
  match r with
  | Some a => (1 <= calls)%nat /\ g (attempt + calls - 1)%nat = Some a
  | None => calls = fuel /\ forall i, (attempt <= i < attempt + calls)%nat -> g i = None
  end.
Proof.
  revert attempt. induction fuel as [|fuel IH]; intros attempt H1 Hinv; simpl.
  - repeat split; intros; lia.
  - destruct (g attempt) as [a|] eqn:E.
    + split; [lia|]. split; [intros; lia|]. split; [lia|].
      replace (attempt + 1 - 1)%nat with attempt by lia. exact E.
    + destruct (attempt <? max_retries) eqn:L.
      * specialize (IH (S attempt) ltac:(lia) ltac:(lia)).
        destruct (retry_loop g max_retries (S attempt) fuel) as [r calls].
        destruct IH as (Hc & Hpre & Hr). split; [lia|]. split.
        -- intros i Hi. destruct (Nat.eq_dec i attempt) as [->|]; [exact E|].
           apply Hpre. lia.
        -- destruct r as [a|].
           ++ destruct Hr as [Hc1 Hg]. split; [lia|].
              replace (attempt + S calls - 1)%nat with (S attempt + calls - 1)%nat by lia.
              exact Hg.
           ++ destruct Hr as [Hc1 Hall]. split; [lia|].
              intros i Hi. destruct (Nat.eq_dec i attempt) as [->|]; [exact E|].
              apply Hall. lia.
      * apply Nat.ltb_ge in L. assert (fuel = 0)%nat by lia. subst fuel.
        split; [lia|]. split; [intros; lia|]. split; [reflexivity|].
        intros i Hi. replace i with attempt by lia. exact E.
Qed.

(** What [research_market] returns. Without an API key it makes no call
    and returns None. Otherwise it makes at most max_retries calls and
    returns the evidence of the first attempt that parses to a JSON object;
    every earlier attempt failed. It returns None only after all
    max_retries attempts failed. A returned EvidenceDict has at most 20
    stripped items per list and a canonical source_quality. *)
Theorem research_market_first_valid (py_repr : JValue -> pystr)
    (json_loads : pystr -> option JValue) (api_key : bool)
    (call_api : nat -> option pystr) (max_retries : nat) :
  let '(result, calls) := research_market py_repr json_loads api_key call_api max_retries in
  (api_key = false -> result = None /\ calls = 0%nat) /\
  (calls <= max_retries)%nat /\
  (forall i, (1 <= i < calls)%nat -> research_attempt py_repr json_loads call_api i = None) /\
  match result with
  | Some e =>
      api_key = true /\ (1 <= calls)%nat /\
      research_attempt py_repr json_loads call_api calls = Some e /\
      Forall (fun l => (List.length l <= 20)%nat /\ Forall (fun s => strip s = s) l)
        [recent_developments e; evidence_yes e; evidence_no e; official_signals e;
         timeline_constraints e] /\
      In (source_quality e) canonical_qualities
  | None =>
      api_key = true -> calls = max_retries /\
      forall i, (1 <= i <= max_retries)%nat -> research_attempt py_repr json_loads call_api i = None
  end.
Proof.
  unfold research_market. destruct api_key; simpl negb; cbv iota.
  - pose proof (retry_loop_spec (research_attempt py_repr json_loads call_api)
                  max_retries 1 max_retries ltac:(lia) ltac:(lia)) as S.
    destruct (retry_loop _ max_retries 1 max_retries) as [r calls].
    destruct S as (Hc & Hpre & Hr).
    split; [intro; discriminate|]. split; [exact Hc|]. split.
    + intros i Hi. apply Hpre. lia.
    + destruct r as [e|].
      * destruct Hr as [H1 Hg]. replace (1 + calls - 1)%nat with calls in Hg by lia.
        split; [reflexivity|]. split; [exact H1|]. split; [exact Hg|].
        unfold research_attempt, research_parse_and_validate in Hg.
        destruct (call_api calls) as [[|c t]|]; try discriminate.
        destruct (blank (c :: t)); [discriminate|].
        destruct (extract_json_from_response (c :: t)) as [cl|]; [|discriminate].
        destruct (json_loads cl) as [[| | | | |data]|]; try discriminate.
        injection Hg as <-. apply EvidenceProofs.validate_evidence_schema_shape.
      * intros _. destruct Hr as [-> Hall]. split; [reflexivity|].
        intros i Hi. apply Hall. lia.
  - split; [intros _; split; reflexivity|]. split; [lia|]. split; [intros; lia|].
    intro; discriminate.
Qed.

Lemma create_decision_shape (py_repr : JValue -> pystr) (market : Market)
    (data : JDict) (now : Q) (d : Decision) :
  Judge.validate_decision_data data = true ->
  create_decision py_repr market data now = Some d ->
  d_market_id d = m_id market /\
  0 <= d_estimated_probability d <= 1 /\ 0 <= d_confidence_level d <= 1 /\
  d_edge d = d_estimated_probability d - m_probability market /\
  (d_decision d = lit "yes" \/ d_decision d = lit "no" \/ d_decision d = lit "pass") /\
  (List.length (d_key_risks d) <= 10)%nat /\
  (List.length (d_reasoning_summary d) <= 500)%nat /\
  d_created_at d = now.
Proof.
  intros Hv Hc. apply JudgeProofs.validate_decision_data_true in Hv
    as ((v1 & q1 & E1 & F1 & A1 & B1) & (v2 & q2 & E2 & F2 & A2 & B2) & _ & _).
  unfold create_decision in Hc. rewrite E1, E2 in Hc. cbn [option_map] in Hc.
  rewrite F1, F2 in Hc.
  set (R := firstn 500 _) in Hc.
  assert (HR : (List.length R <= 500)%nat) by apply firstn_le_length.
  set (K := match dict_get data (lit "key_risks") with
            | Some (JList risks) => clean_items py_repr 10 risks | _ => [] end) in Hc.
  assert (HK : (List.length K <= 10)%nat).
  { subst K. destruct (dict_get data (lit "key_risks")) as [[]|];
      try (cbn [List.length]; lia). apply firstn_le_length. }
  injection Hc as <-.
  cbn [d_market_id d_estimated_probability d_confidence_level d_edge d_decision
       d_key_risks d_reasoning_summary d_created_at].
  split; [reflexivity|]. split; [split; assumption|]. split; [split; assumption|].
  split; [reflexivity|]. split.
  - destruct (Qltb 0.05 (q1 - m_probability market) && Qltb 0.4 q2); [left; reflexivity|].
    destruct (Qltb (q1 - m_probability market) (-0.05) && Qltb 0.4 q2);
      [right; left; reflexivity|right; right; reflexivity].
  - split; [exact HK|]. split; [exact HR|reflexivity].
Qed.

(** What [judge_market] returns. Without an API key it makes no call.
    Otherwise it makes at most max_retries calls and returns the Decision
    of the first attempt whose response validates. That Decision carries
    the market's id, an estimated probability and a confidence in [0, 1],
    edge = estimated - market probability, a recommendation among
    "yes", "no" and "pass", at most 10 key risks and a reasoning summary of
    at most 500 characters. It returns None only after all attempts
    failed. *)
Theorem judge_market_first_valid (py_repr : JValue -> pystr)
    (json_loads : pystr -> option JValue) (api_key : bool) (market : Market) (now : Q)
    (call_api : nat -> option pystr) (max_retries : nat) :
  let '(result, calls) := judge_market py_repr json_loads api_key market now call_api max_retries in
  (api_key = false -> result = None /\ calls = 0%nat) /\
  (calls <= max_retries)%nat /\
  (forall i, (1 <= i < calls)%nat ->
     judge_attempt py_repr json_loads market now call_api i = None) /\
  match result with
  | Some d =>
      api_key = true /\ (1 <= calls)%nat /\
      judge_attempt py_repr json_loads market now call_api calls = Some d /\
      d_market_id d = m_id market /\
      0 <= d_estimated_probability d <= 1 /\ 0 <= d_confidence_level d <= 1 /\
      d_edge d = d_estimated_probability d - m_probability market /\
      (d_decision d = lit "yes" \/ d_decision d = lit "no" \/ d_decision d = lit "pass") /\
      (List.length (d_key_risks d) <= 10)%nat /\
      (List.length (d_reasoning_summary d) <= 500)%nat
  | None =>
      api_key = true -> calls = max_retries /\
      forall i, (1 <= i <= max_retries)%nat ->
        judge_attempt py_repr json_loads market now call_api i = None
  end.
Proof.
  unfold judge_market. destruct api_key; simpl negb; cbv iota.
  - pose proof (retry_loop_spec (judge_attempt py_repr json_loads market now call_api)
                  max_retries 1 max_retries ltac:(lia) ltac:(lia)) as S.
    destruct (retry_loop _ max_retries 1 max_retries) as [r calls].
    destruct S as (Hc & Hpre & Hr).
    split; [intro; discriminate|]. split; [exact Hc|]. split.
    + intros i Hi. apply Hpre. lia.
    + destruct r as [d|].
      * destruct Hr as [H1 Hg]. replace (1 + calls - 1)%nat with calls in Hg by lia.
        split; [reflexivity|]. split; [exact H1|]. split; [exact Hg|].
        unfold judge_attempt, judge_parse_and_validate in Hg.
        destruct (call_api calls) as [[|c t]|]; try discriminate.
        destruct (blank (c :: t)); [discriminate|].
        destruct (extract_json_from_response (c :: t)) as [cl|]; [|discriminate].
        destruct (json_loads cl) as [[| | | | |data]|]; try discriminate.
        destruct (Judge.validate_decision_data data) eqn:V; [|discriminate].
        destruct (create_decision_shape py_repr market data now d V Hg)
          as (Hm & [He1 He2] & [Hc1 Hc2] & Hed & Hdec & Hk & Hrs & _).
        repeat split; assumption.
      * intros _. destruct Hr as [-> Hall]. split; [reflexivity|].
        intros i Hi. apply Hall. lia.
  - split; [intros _; split; reflexivity|]. split; [lia|]. split; [intros; lia|].
    intro; discriminate.
Qed.

End AgentProofs.

Module MainProofs.
Import Ranker RankerLists Reporter Main.
Local Open Scope Q_scope.

Lemma passes_basic_filter_true (c : Config) (now : Q) (m : Market) :
  passes_basic_filter c now m = true <->
  MIN_LIQUIDITY_USD c <= m_liquidity m /\ MIN_VOLUME_24H_USD c <= m_volume_24h m /\
  match m_end_date m with
  | Some e => inject_Z (MIN_DAYS_TO_RESOLUTION c) <= days_until now e /\
              days_until now e <= inject_Z (MAX_DAYS_TO_RESOLUTION c)
  | None => (MIN_DAYS_TO_RESOLUTION c <= 0)%Z /\ (999 <= MAX_DAYS_TO_RESOLUTION c)%Z
  end.
Proof.
  unfold passes_basic_filter.
  destruct (Qltb (m_liquidity m) (MIN_LIQUIDITY_USD c)) eqn:L.
  { apply JudgeProofs.Qltb_true in L. split; [discriminate|].
    intros [H _]. exfalso. exact (Qlt_not_le _ _ L H). }
  assert (L' : MIN_LIQUIDITY_USD c <= m_liquidity m).
  { apply Qnot_lt_le. intro H. apply JudgeProofs.Qltb_true in H. congruence. }
  destruct (Qltb (m_volume_24h m) (MIN_VOLUME_24H_USD c)) eqn:V.
  { apply JudgeProofs.Qltb_true in V. split; [discriminate|].
    intros (_ & H & _). exfalso. exact (Qlt_not_le _ _ V H). }
  assert (V' : MIN_VOLUME_24H_USD c <= m_volume_24h m).
  { apply Qnot_lt_le. intro H. apply JudgeProofs.Qltb_true in H. congruence. }
  destruct (m_end_date m) as [e|].
  - destruct (Qltb (days_until now e) (inject_Z (MIN_DAYS_TO_RESOLUTION c))) eqn:D1.
    { apply JudgeProofs.Qltb_true in D1. split; [discriminate|].
      intros (_ & _ & H & _). exfalso. exact (Qlt_not_le _ _ D1 H). }
    destruct (Qltb (inject_Z (MAX_DAYS_TO_RESOLUTION c)) (days_until now e)) eqn:D2.
    { apply JudgeProofs.Qltb_true in D2. split; [discriminate|].
      intros (_ & _ & _ & H). exfalso. exact (Qlt_not_le _ _ D2 H). }
    split; [intros _|reflexivity]. repeat split; try assumption;
      apply Qnot_lt_le; intro H; apply JudgeProofs.Qltb_true in H; congruence.
  - destruct (0 <? MIN_DAYS_TO_RESOLUTION c)%Z eqn:A, (MAX_DAYS_TO_RESOLUTION c <? 999)%Z eqn:B;
      simpl; split; intro H; try discriminate;
      try (destruct H as (_ & _ & H1 & H2); lia);
      repeat split; try assumption; lia.
Qed.

Lemma filter_markets_filter (c : Config) (now : Q) (ms : list Market) :
  filter_markets c now ms = filter (passes_basic_filter c now) ms.
Proof.
  induction ms as [|m ms IH]; simpl; [reflexivity|]. rewrite IH. reflexivity.
Qed.

(** [main.filter_markets] returns the sublist of its input, in input
    order and with repeats kept, of the markets that pass the basic filter.
    A market passes exactly when liquidity >= MIN_LIQUIDITY_USD,
    volume_24h >= MIN_VOLUME_24H_USD and MIN_DAYS_TO_RESOLUTION <= days to
    resolution <= MAX_DAYS_TO_RESOLUTION. A market without an end date
    passes only when MIN_DAYS <= 0 and MAX_DAYS >= 999. With the default
    configuration, a market without an end date is never kept. *)
Theorem filter_markets_spec (c : Config) (now : Q) (markets : list Market) :
  filter_markets c now markets = filter (passes_basic_filter c now) markets /\
  (forall m, passes_basic_filter c now m = true <->
     MIN_LIQUIDITY_USD c <= m_liquidity m /\ MIN_VOLUME_24H_USD c <= m_volume_24h m /\
     match m_end_date m with
     | Some e => inject_Z (MIN_DAYS_TO_RESOLUTION c) <= days_until now e /\
                 days_until now e <= inject_Z (MAX_DAYS_TO_RESOLUTION c)
     | None => (MIN_DAYS_TO_RESOLUTION c <= 0)%Z /\ (999 <= MAX_DAYS_TO_RESOLUTION c)%Z
     end) /\
  (forall m, m_end_date m = None -> ~ In m (filter_markets default_config now markets)).
Proof.
  split; [apply filter_markets_filter|]. split.
  - intro m. apply passes_basic_filter_true.
  - intros m Hm Hin. rewrite filter_markets_filter, filter_In, passes_basic_filter_true in Hin.
    destruct Hin as (_ & _ & _ & H). rewrite Hm in H. simpl in H. lia.
Qed.

Lemma py_slice_to_incl {A : Type} (n : Z) (l : list A) (x : A) :
  In x (py_slice_to n l) -> In x l.
Proof.
  unfold py_slice_to. intro Hx.
  destruct (0 <=? n)%Z;
    [rewrite <- (firstn_skipn (Z.to_nat n) l)|rewrite <- (firstn_skipn (List.length l - Z.to_nat (- n)) l)];
    apply in_or_app; left; exact Hx.
Qed.

Lemma py_slice_to_length {A : Type} (n : Z) (l : list A) :
  (List.length (py_slice_to n l) <= List.length l)%nat /\
  ((0 <= n)%Z -> (List.length (py_slice_to n l) <= Z.to_nat n)%nat).
Proof.
  unfold py_slice_to. split.
  - destruct (0 <=? n)%Z; rewrite length_firstn; lia.
  - intro H. apply Z.leb_le in H. rewrite H. rewrite length_firstn. lia.
Qed.

Lemma insert_by_priority_perm x l : Permutation (insert_by_priority x l) (x :: l).
Proof.
  induction l as [|y l IH]; simpl; [reflexivity|].
  destruct (Nat.leb _ _); [reflexivity|]. rewrite IH. apply perm_swap.
Qed.

Lemma sort_by_priority_perm l : Permutation (sort_by_priority l) l.
Proof.
  induction l as [|x l IH]; simpl; [reflexivity|].
  rewrite insert_by_priority_perm. now constructor.
Qed.

Lemma dict_set_values {V : Type} (d : list (pystr * V)) (k : pystr) (v x : V) :
  In x (map snd (dict_set d k v)) -> x = v \/ In x (map snd d).
Proof.
  induction d as [|[k' v'] d IH]; simpl; intro H.
  - destruct H as [H|[]]. left. symmetry. exact H.
  - destruct (str_eqb k' k); simpl in H.
    + destruct H as [H|H]; [left; symmetry; exact H|right; right; exact H].
    + destruct H as [H|H]; [right; left; exact H|].
      destruct (IH H) as [H'|H']; [left; exact H'|right; right; exact H'].
Qed.

Lemma dict_set_length {V : Type} (d : list (pystr * V)) (k : pystr) (v : V) :
  (List.length (dict_set d k v) <= S (List.length d))%nat.
Proof.
  induction d as [|[k' v'] d IH]; simpl; [lia|]. destruct (str_eqb k' k); simpl; lia.
Qed.

Lemma collect_research_spec (research : Market -> option Evidence) (mtr : list Market) :
  (List.length (collect_research research mtr) <= List.length mtr)%nat /\
  (forall p, In p (map snd (collect_research research mtr)) -> In (fst p) mtr).
Proof.
  unfold collect_research.
  assert (G : forall acc,
    (List.length (fold_left (fun acc m => match research m with
       | Some e => dict_set acc (m_id m) (m, e) | None => acc end) mtr acc)
       <= List.length acc + List.length mtr)%nat /\
    (forall p, In p (map snd (fold_left (fun acc m => match research m with
       | Some e => dict_set acc (m_id m) (m, e) | None => acc end) mtr acc)) ->
       In p (map snd acc) \/ In (fst p) mtr)).
  { induction mtr as [|m mtr IH]; intro acc; simpl.
    - split; [lia|]. intros p H. left. exact H.
    - destruct (research m) as [e|].
      + destruct (IH (dict_set acc (m_id m) (m, e))) as [H1 H2]. split.
        * pose proof (dict_set_length acc (m_id m) (m, e)). lia.
        * intros p Hp. destruct (H2 p Hp) as [H|H]; [|right; right; exact H].
          destruct (dict_set_values _ _ _ _ H) as [->|H']; [right; left; reflexivity|left; exact H'].
      + destruct (IH acc) as [H1 H2]. split; [lia|].
        intros p Hp. destruct (H2 p Hp) as [H|H]; [left; exact H|right; right; exact H]. }
  destruct (G []) as [H1 H2]. split; [simpl in H1; lia|].
  intros p Hp. destruct (H2 p Hp) as [[]|H]. exact H.
Qed.

Lemma lookup_market_in (d : list (pystr * Market)) (k : pystr) (m : Market) :
  lookup_market d k = Some m -> In m (map snd d).
Proof.
  induction d as [|[k' m'] d IH]; simpl; [discriminate|].
  destruct (str_eqb k' k); [intro H; injection H as <-; left; reflexivity|].
  intro H. right. apply IH, H.
Qed.

Lemma collect_decisions_spec (judge : Market -> Evidence -> option Decision)
    (mtj : list (Market * Evidence)) ds md :
  collect_decisions judge mtj = (ds, md) ->
  (List.length ds <= List.length mtj)%nat /\
  (forall m, In m (map snd md) -> exists e, In (m, e) mtj).
Proof.
  unfold collect_decisions.
  assert (G : forall ds0 md0,
    let '(ds1, md1) := fold_left (fun '(decisions, markets_dict) '(m, e) =>
               match judge m e with
               | Some d => (decisions ++ [d], dict_set markets_dict (m_id m) m)
               | None => (decisions, markets_dict)
               end) mtj (ds0, md0) in
    (List.length ds1 <= List.length ds0 + List.length mtj)%nat /\
    (forall m, In m (map snd md1) -> In m (map snd md0) \/ exists e, In (m, e) mtj)).
  { induction mtj as [|[m e] mtj IH]; intros ds0 md0; simpl.
    - split; [lia|]. intros m H. left. exact H.
    - destruct (judge m e) as [d|].
      + specialize (IH (ds0 ++ [d]) (dict_set md0 (m_id m) m)).
        destruct (fold_left _ mtj _) as [ds1 md1]. destruct IH as [H1 H2].
        rewrite length_app in H1. simpl in H1. split; [lia|].
        intros m' Hm'. destruct (H2 m' Hm') as [H|[e' H]].
        * destruct (dict_set_values _ _ _ _ H) as [->|H'];
            [right; exists e; left; reflexivity|left; exact H'].
        * right. exists e'. right. exact H.
      + specialize (IH ds0 md0). destruct (fold_left _ mtj _) as [ds1 md1].
        destruct IH as [H1 H2]. split; [lia|].
        intros m' Hm'. destruct (H2 m' Hm') as [H|[e' H]]; [left; exact H|].
        right. exists e'. right. exact H. }
  intro E. specialize (G [] []). rewrite E in G. destruct G as [H1 H2].
  split; [simpl in H1; lia|]. intros m Hm. destruct (H2 m Hm) as [[]|H]. exact H.
Qed.

Lemma collect_length (now : R) markets min_edge ds :
  (List.length (collect now markets min_edge ds) <= List.length ds)%nat.
Proof.
  induction ds as [|d ds IH]; cbn [collect]; [simpl; lia|].
  destruct (lookup_market markets (d_market_id d)); [|simpl; lia].
  destruct (Qltb _ _); [simpl; lia|]. destruct (str_eqb _ _); simpl; lia.
Qed.

(** What a successful [run_pipeline] returns. The configuration
    validated, and the list of opportunities is non-empty. It has at most
    MAX_MARKETS_TO_RESEARCH entries, and at most MAX_MARKETS_TO_JUDGE
    when that limit is not negative. Every opportunity's market was
    fetched, passed [filter_markets], and was rated research-worthy by
    [evaluate_market]. *)
Theorem run_pipeline_result (c : Config) (now : Q) (fetched : list Market)
    (research : Market -> option Evidence)
    (judge : Market -> Evidence -> option Decision) :
  match run_pipeline c now fetched research judge with
  | None => True
  | Some opportunities =>
      fst (config_validate c) = true /\ opportunities <> [] /\
      (List.length opportunities <= Z.to_nat (MAX_MARKETS_TO_RESEARCH c))%nat /\
      ((0 <= MAX_MARKETS_TO_JUDGE c)%Z ->
       (List.length opportunities <= Z.to_nat (MAX_MARKETS_TO_JUDGE c))%nat) /\
      Forall (fun o => In (market o) fetched /\
                       passes_basic_filter c now (market o) = true /\
                       Filter.research_worthy (Filter.evaluate_market now (market o)) = true)
        opportunities
  end.
Proof.
  unfold run_pipeline.
  destruct (fst (config_validate c)) eqn:V; [|exact I]. cbv beta iota.
  simpl negb. cbv iota.
  destruct fetched as [|f0 fr]; [exact I|].
  remember (f0 :: fr) as fetched eqn:Ef.
  destruct (filter_markets c now fetched) as [|g0 gr] eqn:F; [exact I|].
  rewrite <- F.
  set (W := filter _ (map _ (filter_markets c now fetched))).
  destruct W as [|w0 wr] eqn:EW; [exact I|]. rewrite <- EW.
  set (mtr := map fst (py_slice_to (MAX_MARKETS_TO_RESEARCH c) (sort_by_priority W))).
  destruct (collect_research research mtr) as [|r0 rr] eqn:ER; [exact I|]. rewrite <- ER.
  set (mtj := py_slice_to (MAX_MARKETS_TO_JUDGE c) (map snd (collect_research research mtr))).
  destruct (collect_decisions judge mtj) as [ds md] eqn:ED.
  destruct ds as [|d0 dr]; [exact I|].
  destruct (rank_opportunities (Q2R now) (d0 :: dr) md (5 # 100)) as [|o0 orr] eqn:EO;
    [exact I|]. rewrite <- EO.
  (* the limits *)
  assert (Vr : (1 <= MAX_MARKETS_TO_RESEARCH c)%Z).
  { unfold config_validate in V. simpl in V. apply Nat.eqb_eq in V.
    unfold config_errors in V. destruct (MAX_MARKETS_TO_RESEARCH c <? 1)%Z eqn:E.
    - exfalso. rewrite !length_app in V. simpl in V. lia.
    - apply Z.ltb_ge in E. exact E. }
  destruct (collect_research_spec research mtr) as [Rl Rv].
  destruct (collect_decisions_spec judge mtj _ _ ED) as [Dl Dv].
  assert (Ol : (List.length (rank_opportunities (Q2R now) (d0 :: dr) md (5 # 100))
                <= List.length (d0 :: dr))%nat).
  { unfold rank_opportunities. rewrite (Permutation_length (RankerProofs.sort_desc_perm _)).
    apply collect_length. }
  destruct (py_slice_to_length (MAX_MARKETS_TO_JUDGE c) (map snd (collect_research research mtr)))
    as [Jl Jn].
  destruct (py_slice_to_length (MAX_MARKETS_TO_RESEARCH c) (sort_by_priority W)) as [_ Rn].
  fold mtj in Jl, Jn. rewrite length_map in Jl.
  assert (Mn : (List.length mtr <= Z.to_nat (MAX_MARKETS_TO_RESEARCH c))%nat).
  { unfold mtr. rewrite length_map. apply Rn. lia. }
  split; [reflexivity|]. split; [rewrite EO; discriminate|]. split; [lia|]. split.
  { intro H. specialize (Jn H). lia. }
  (* where the markets come from *)
  eapply Forall_impl; [|apply RankerExtraProofs.rank_shape].
  intros o (_ & _ & Hl). apply lookup_market_in, Dv in Hl as [e He].
  apply py_slice_to_incl in He. apply Rv in He. simpl in He.
  unfold mtr in He. apply in_map_iff in He as [[m fd] [Hm Hin]]. simpl in Hm. subst m.
  apply py_slice_to_incl in Hin.
  apply (Permutation_in _ (sort_by_priority_perm W)) in Hin.
  unfold W in Hin. apply filter_In in Hin as [Hin Hw].
  apply in_map_iff in Hin as [m' [Hp Hm']]. injection Hp as <- <-.
  simpl in Hw. rewrite filter_markets_filter in Hm'. apply filter_In in Hm' as [Hf Hpass].
  split; [exact Hf|]. split; assumption.
Qed.

End MainProofs.

Module SchedLifeProofs.
Import Sched SchedLife.

(** [Scheduler.start] returns True exactly when the scheduler is not
    running, the function is callable, the interval (given, or the
    configured one) is at least 1, and APScheduler raises nothing. Then
    the scheduler runs, holds an APScheduler object and has a pipeline
    function. On False the running flag is unchanged, and the state is
    untouched when it was already running or the function is not
    callable. The execution lock is never touched. *)
Theorem start_spec (s : Obj) (callable : bool) (interval_hours : option Z)
    (scan_interval : Z) (o : start_outcome) :
  let hours := match interval_hours with Some h => h | None => scan_interval end in
  let '(s', ok) := start s callable interval_hours scan_interval o in
  (ok = true <-> is_running (core s) = false /\ callable = true /\ (1 <= hours)%Z /\
                 o = StartOk) /\
  (ok = true -> is_running (core s') = true /\ aps s' = true /\
                has_pipeline_function (core s') = true) /\
  (ok = false -> is_running (core s') = is_running (core s)) /\
  (is_running (core s) = true \/ callable = false -> s' = s) /\
  lock_held (core s') = lock_held (core s) /\ tick_active (core s') = tick_active (core s).
Proof.
  cbv zeta. unfold start.
  destruct (is_running (core s)) eqn:R; [cbn; intuition (discriminate || congruence)|].
  destruct callable; [|cbn; intuition (discriminate || congruence)]. simpl negb. cbv iota.
  destruct (_ <? 1)%Z eqn:H.
  - apply Z.ltb_lt in H. cbn. intuition (discriminate || congruence || lia).
  - apply Z.ltb_ge in H. destruct o; cbn; intuition (discriminate || congruence || lia).
Qed.

(** A start rejected for an interval below 1 returns False and leaves the
    scheduler stopped, but it has already stored the pipeline function:
    the status then reports [has_pipeline_function] True with
    [is_running] False. *)
Theorem start_bad_interval_keeps_function (s : Obj) (interval_hours : option Z)
    (scan_interval : Z) (o : start_outcome)
    (Hstopped : is_running (core s) = false)
    (Hbad : (match interval_hours with Some h => h | None => scan_interval end < 1)%Z) :
  let '(s', ok) := start s true interval_hours scan_interval o in
  ok = false /\ is_running (core s') = false /\
  st_is_running (snd (get_status (core s'))) = false /\
  st_has_pipeline_function (snd (get_status (core s'))) = true.
Proof.
  unfold start. rewrite Hstopped. simpl negb. cbv iota zeta.
  apply Z.ltb_lt in Hbad. rewrite Hbad.
  unfold get_status, is_job_running, try_acquire. simpl.
  destruct (lock_held (core s)); simpl; repeat split; assumption.
Qed.

(** [Scheduler.stop] returns True exactly when the scheduler runs, holds an
    APScheduler object and its shutdown does not raise. It then leaves the
    scheduler stopped without an APScheduler object, keeping the pipeline
    function. On False nothing changes. *)
Theorem stop_spec (s : Obj) (shutdown_ok : bool) :
  let '(s', ok) := stop s shutdown_ok in
  (ok = true <-> is_running (core s) = true /\ aps s = true /\ shutdown_ok = true) /\
  (ok = true -> is_running (core s') = false /\ aps s' = false /\
                has_pipeline_function (core s') = has_pipeline_function (core s)) /\
  (ok = false -> s' = s).
Proof.
  unfold stop. destruct (is_running (core s)), (aps s), shutdown_ok; simpl;
    repeat split; try discriminate; intros; try reflexivity;
    try (destruct H as (H1 & H2 & H3); discriminate).
Qed.

(** The global functions: after a successful [start_scheduler] and a
    successful [stop_scheduler], a second [stop_scheduler] returns False and
    changes nothing, and [start_scheduler] can start the scheduler again.
    Without an instance, [stop_scheduler] returns False and
    [get_scheduler_status] reports a stopped scheduler. *)
Theorem scheduler_restart (inst : option Obj) (callable : bool)
    (interval_hours : option Z) (scan_interval : Z) (s1 : Obj)
    (Hstart : start_scheduler inst callable interval_hours scan_interval StartOk = (Some s1, true)) :
  let '(i2, r2) := stop_scheduler (Some s1) true in
  r2 = true /\
  stop_scheduler i2 true = (i2, false) /\
  snd (start_scheduler i2 callable interval_hours scan_interval StartOk) = true /\
  stop_scheduler None true = (None, false) /\
  get_scheduler_status None = (None, mkStatus false false false).
Proof.
  unfold start_scheduler in Hstart.
  set (s0 := match inst with Some s => s | None => fresh end) in Hstart.
  pose proof (start_spec s0 callable interval_hours scan_interval StartOk) as Hs.
  destruct (start s0 callable interval_hours scan_interval StartOk) as [s1' ok] eqn:E.
  injection Hstart as Hs1 Hok1. subst s1' ok.
  destruct Hs as ([Hok _] & Hrun & _). destruct (Hrun eq_refl) as (R1 & A1 & P1).
  destruct (Hok eq_refl) as (_ & Hc & Hh & _).
  unfold stop_scheduler. unfold stop at 1. rewrite R1, A1. simpl.
  repeat split.
  unfold start_scheduler, start. simpl. rewrite Hc. simpl.
  apply Z.ltb_ge in Hh. rewrite Hh. reflexivity.
Qed.

Lemma start_bad_interval_keeps_function_witness :
  let '(s', ok) := start fresh true (Some 0%Z) 6%Z StartOk in
  ok = false /\ is_running (core s') = false /\
  st_is_running (snd (get_status (core s'))) = false /\
  st_has_pipeline_function (snd (get_status (core s'))) = true.
Proof.
  apply (start_bad_interval_keeps_function fresh (Some 0%Z) 6%Z StartOk); reflexivity.
Defined.

Lemma scheduler_restart_witness :
  let '(i2, r2) := stop_scheduler (Some (fst (start fresh true None 6%Z StartOk))) true in
  r2 = true /\
  stop_scheduler i2 true = (i2, false) /\
  snd (start_scheduler i2 true None 6%Z StartOk) = true /\
  stop_scheduler None true = (None, false) /\
  get_scheduler_status None = (None, mkStatus false false false).
Proof.
  apply (scheduler_restart None true None 6%Z); reflexivity.
Defined.

End SchedLifeProofs.

Module FilterExtraProofs.
Import Filter.
Local Open Scope Q_scope.

Lemma clamp01_spec (x : Q) : 0 <= clamp01 x <= 1 /\ (0 <= x <= 1 -> clamp01 x == x).
Proof.
  unfold clamp01, py_max, py_min.
  destruct (Qlt_le_dec x 1) as [H1|H1]; destruct (Qlt_le_dec 0 _) as [H2|H2].
  - split; [split; [apply Qlt_le_weak; exact H2|apply Qlt_le_weak; exact H1]|intros; reflexivity].
  - split; [split; [apply Qle_refl|discriminate]|].
    intros [A B]. apply Qle_antisym; assumption.
  - split; [split; [apply Qlt_le_weak; exact H2|apply Qle_refl]|].
    intros [A B]. apply Qle_antisym; assumption.
  - exfalso. apply (Qle_not_lt _ _ H2). reflexivity.
Qed.

Local Ltac qdec := apply Qle_bool_iff; vm_compute; reflexivity.
Local Ltac split_ifs := repeat match goal with |- context [if ?b then _ else _] => destruct b end.

Lemma info_bounds now m : 0 <= score_information_dependence now m <= 1.
Proof. apply clamp01_spec. Qed.

Lemma access_bounds m : 0.3 <= score_information_accessibility m <= 1.
Proof.
  split; [|apply clamp01_spec].
  unfold score_information_accessibility; cbv zeta. split_ifs; qdec.
Qed.

Lemma efficiency_bounds m : 0.1 <= score_market_efficiency_risk m <= 0.49.
Proof.
  unfold score_market_efficiency_risk; cbv zeta. split_ifs; split; qdec.
Qed.

Lemma randomness_bounds now m : 0.2 <= score_randomness_risk now m <= 1.
Proof.
  split; [|apply clamp01_spec].
  unfold score_randomness_risk; cbv zeta. destruct (m_end_date m); split_ifs; qdec.
Qed.

Lemma Qleb_true_iff a b : Qleb a b = true <-> a <= b.
Proof. apply Qle_bool_iff. Qed.

Lemma Qltb_true_iff a b : Qltb a b = true <-> a < b.
Proof.
  unfold Qltb. rewrite negb_true_iff. split; intro H.
  - apply Qnot_le_lt. intro H'. apply Qle_bool_iff in H'. congruence.
  - destruct (Qle_bool b a) eqn:E; [|reflexivity]. apply Qle_bool_iff in E.
    exfalso. exact (Qlt_not_le _ _ H E).
Qed.

Lemma Q2R_lit (a : Z) (b : positive) : Q2R (Qmake a b) = (IZR a / IZR (Zpos b))%R.
Proof. reflexivity. Qed.

Local Ltac lits := repeat match goal with
  | |- context [Q2R (Qmake ?a ?b)] => rewrite (Q2R_lit a b)
  | H : context [Q2R (Qmake ?a ?b)] |- _ => rewrite (Q2R_lit a b) in H end.

Local Ltac qR := repeat first [rewrite Q2R_plus | rewrite Q2R_mult | rewrite Q2R_minus].

Local Ltac toR := repeat match goal with
  | H : (_ <= _)%Q |- _ => apply Qle_Rle in H
  | H : (_ < _)%Q |- _ => apply Qlt_Rlt in H end.

Lemma time_bounds now m : 0 <= score_time_sufficiency now m <= 1.
Proof.
  unfold score_time_sufficiency. destruct (m_end_date m) as [e|]; [|split; qdec].
  destruct (Qleb e now); [split; qdec|]. cbv zeta.
  set (d := days_until now e).
  destruct (Qleb 7 d && Qleb d 30) eqn:B1; [split; qdec|].
  destruct (Qleb 3 d && Qltb d 7) eqn:B2.
  { apply andb_true_iff in B2 as [H1 H2].
    apply Qleb_true_iff in H1. apply Qltb_true_iff in H2. toR.
    split; apply Rle_Qle; unfold Qdiv; qR;
      change (Qinv 4) with (1#4); lits; lra. }
  destruct (Qltb 30 d && Qleb d 90) eqn:B3.
  { apply andb_true_iff in B3 as [H1 H2].
    apply Qltb_true_iff in H1. apply Qleb_true_iff in H2. toR.
    split; apply Rle_Qle; unfold Qdiv; qR;
      change (Qinv 60) with (1#60); lits; lra. }
  destruct (Qleb 1 d && Qltb d 3) eqn:B4.
  { apply andb_true_iff in B4 as [H1 H2].
    apply Qleb_true_iff in H1. apply Qltb_true_iff in H2. toR.
    split; apply Rle_Qle; unfold Qdiv; qR;
      change (Qinv 2) with (1#2); lits; lra. }
  destruct (Qltb 90 d); split; qdec.
Qed.

Lemma research_score_bounds now m : 0.177 <= research_score now m <= 0.96.
Proof.
  pose proof (info_bounds now m) as [I1 I2]. pose proof (access_bounds m) as [A1 A2].
  pose proof (efficiency_bounds m) as [E1 E2]. pose proof (time_bounds now m) as [T1 T2].
  pose proof (randomness_bounds now m) as [R1 R2].
  unfold research_score.
  generalize dependent (score_information_dependence now m).
  generalize dependent (score_information_accessibility m).
  generalize dependent (score_market_efficiency_risk m).
  generalize dependent (score_time_sufficiency now m).
  generalize dependent (score_randomness_risk now m). intros.
  toR. split; apply Rle_Qle; qR;
    lits; lra.
Qed.

(** [evaluate_market]'s composite research score always lies in
    [0.177, 0.96], so no market reaches 1. The stored information-dependency
    score lies in [0, 1], the efficiency risk in [0.1, 0.49] and the
    randomness risk in [0.2, 1]. *)
Theorem evaluate_market_score_ranges (now : Q) (m : Market) :
  let d := evaluate_market now m in
  0.177 <= research_score now m <= 0.96 /\
  0 <= info_dependency_score d <= 1 /\
  0.1 <= efficiency_risk_score d <= 0.49 /\
  0.2 <= randomness_risk_score d <= 1.
Proof.
  cbv zeta. unfold evaluate_market; cbv zeta; cbn [info_dependency_score efficiency_risk_score randomness_risk_score].
  split; [apply research_score_bounds|]. split; [apply info_bounds|].
  split; [apply efficiency_bounds|apply randomness_bounds].
Qed.

End FilterExtraProofs.

Module StorageProofs.
Import Storage.
Local Open Scope Q_scope.

Lemma select_row_filter (rows : list MarketRow) (k k' : pystr) :
  select_row (filter (fun r => negb (str_eqb (r_id r) k)) rows) k' =
  if str_eqb k k' then None else select_row rows k'.
Proof.
  induction rows as [|r rows IH]; simpl.
  - destruct (str_eqb k k'); reflexivity.
  - destruct (str_eqb (r_id r) k) eqn:E1; simpl.
    + apply RankerProofs.str_eqb_eq in E1. subst k. rewrite IH.
      destruct (str_eqb (r_id r) k') eqn:E2; reflexivity.
    + rewrite IH. destruct (str_eqb (r_id r) k') eqn:E2.
      * apply RankerProofs.str_eqb_eq in E2. subst k'.
        rewrite RankerExtraProofs.str_eqb_sym, E1. reflexivity.
      * reflexivity.
Qed.

Lemma str_or_empty_some (s : pystr) : str_or_empty (Some s) = s.
Proof. destruct s; reflexivity. Qed.

Lemma select_row_app (rows : list MarketRow) (r : MarketRow) (k : pystr) :
  select_row (rows ++ [r]) k =
  match select_row rows k with
  | Some x => Some x
  | None => if str_eqb (r_id r) k then Some r else None
  end.
Proof.
  induction rows as [|r' rows IH]; simpl; [reflexivity|].
  destruct (str_eqb (r_id r') k); [reflexivity|exact IH].
Qed.

(** [save_market] followed by [get_market] gives the market back, provided
    [fromisoformat] reads back what [isoformat] writes for its end date.
    The only change is that a volume equal to 0 comes back as 0.0. The
    saved row keeps the [created_at] of an earlier row with the same id,
    else it is [now]. Its [updated_at] is [now], and the rows of other ids
    are unchanged. *)
Theorem save_then_get_market (isoformat : Q -> pystr) (fromisoformat : pystr -> option Q)
    (rows : list MarketRow) (market : Market) (now : pystr)
    (Hiso : forall e, m_end_date market = Some e ->
            isoformat e <> [] /\ fromisoformat (isoformat e) = Some e) :
  let rows' := save_market isoformat rows market now in
  (exists m', get_market fromisoformat rows' (m_id market) = Some m' /\
     m_id m' = m_id market /\ m_title m' = m_title market /\
     m_description m' = m_description market /\ m_probability m' = m_probability market /\
     m_liquidity m' = m_liquidity market /\ m_end_date m' = m_end_date market /\
     m_slug m' = m_slug market /\ m_category m' = m_category market /\
     m_volume_24h m' == m_volume_24h market) /\
  (exists r, select_row rows' (m_id market) = Some r /\ r_updated_at r = now /\
     r_created_at r = match select_row rows (m_id market) with
                      | Some old => r_created_at old | None => now end) /\
  (forall k, k <> m_id market -> select_row rows' k = select_row rows k).
Proof.
  cbv zeta. unfold save_market.
  set (row := mkMarketRow _ _ _ _ _ _ _ _ _ _ _).
  assert (Hsel : select_row (filter (fun r => negb (str_eqb (r_id r) (m_id market))) rows ++ [row])
                   (m_id market) = Some row).
  { rewrite select_row_app, select_row_filter, RankerProofs.str_eqb_refl.
    unfold row. simpl. rewrite RankerProofs.str_eqb_refl. reflexivity. }
  split; [|split].
  - unfold get_market. rewrite Hsel. simpl. eexists. split; [reflexivity|].
    unfold row_to_market, row. cbn [r_id r_title r_description r_probability r_liquidity
      r_end_date r_slug r_category r_volume_24h m_id m_title m_description m_probability
      m_liquidity m_end_date m_slug m_category m_volume_24h].
    repeat split.
    + apply str_or_empty_some.
    + clear row Hsel. destruct (m_end_date market) as [e|] eqn:E; [|reflexivity]. simpl.
      destruct (Hiso e eq_refl) as [Hne Hrt].
      destruct (isoformat e) as [|c t] eqn:Ei; [contradiction|]. exact Hrt.
    + apply str_or_empty_some.
    + apply str_or_empty_some.
    + unfold float_or_zero. destruct (Qeq_bool (m_volume_24h market) 0) eqn:E.
      * apply Qeq_bool_iff in E. symmetry. exact E.
      * reflexivity.
  - exists row. split; [exact Hsel|]. split; reflexivity.
  - intros k Hk. rewrite select_row_app, select_row_filter.
    destruct (str_eqb (m_id market) k) eqn:E.
    + apply RankerProofs.str_eqb_eq in E. congruence.
    + destruct (select_row rows k); [reflexivity|]. unfold row. simpl. rewrite E. reflexivity.
Qed.

Lemma save_then_get_market_witness :
  let iso := lit "2024-06-01T00:00:00" in
  let isoformat := fun _ : Q => iso in
  let fromisoformat := fun t => if str_eqb t iso then Some (1717200000 # 1) else None in
  let market := mkMarket (lit "m1") (lit "Will it rain?") [] (1#2) 100
                  (Some (1717200000 # 1)) [] [] 0 in
  let old := mkMarketRow (lit "m1") (lit "Old title") None (1#4) 50 None None None None
               (lit "2023-05-05T00:00:00") (lit "2023-05-05T00:00:00") in
  let other := mkMarketRow (lit "m0") (lit "Other") None (1#3) 10 None None None None
                 (lit "2023-01-01T00:00:00") (lit "2023-01-01T00:00:00") in
  let rows := [other; old] in
  let now := lit "2024-01-01T00:00:00" in
  (forall e, m_end_date market = Some e -> isoformat e <> [] /\ fromisoformat (isoformat e) = Some e) /\
  let rows' := save_market isoformat rows market now in
  (exists m', get_market fromisoformat rows' (m_id market) = Some m' /\
     m_id m' = m_id market /\ m_title m' = m_title market /\
     m_description m' = m_description market /\ m_probability m' = m_probability market /\
     m_liquidity m' = m_liquidity market /\ m_end_date m' = m_end_date market /\
     m_slug m' = m_slug market /\ m_category m' = m_category market /\
     m_volume_24h m' == m_volume_24h market) /\
  (exists r, select_row rows' (m_id market) = Some r /\ r_updated_at r = now /\
     r_created_at r = match select_row rows (m_id market) with
                      | Some old => r_created_at old | None => now end) /\
  (forall k, k <> m_id market -> select_row rows' k = select_row rows k).
Proof.
  intros iso isoformat fromisoformat market old other rows now.
  assert (Hiso : forall e, m_end_date market = Some e ->
                 isoformat e <> [] /\ fromisoformat (isoformat e) = Some e).
  { intros e He. injection He as <-. split; [discriminate|reflexivity]. }
  split; [exact Hiso|].
  apply (save_then_get_market isoformat fromisoformat rows market now Hiso).
Defined.

End StorageProofs.

Module BackoffProofs.
Import Utils.
Local Open Scope Q_scope.

Section Calls.
Context {A : Type}.
Variable func : nat -> option A.
Variable sleep_limit : Q.
Variables (max_retries : Z) (max_delay exponential_base : Q).

Local Ltac zl := cbn [List.length]; lia.

Lemma backoff_loop_calls (remaining attempt : nat) (delay : Q) :
  (Z.of_nat (attempt + remaining) = Z.max 0 (max_retries + 1))%Z ->
  (forall j, (j < attempt)%nat -> func j = None) ->
  let '(o, ds) := backoff_loop func sleep_limit max_retries max_delay exponential_base
                    attempt remaining delay (match attempt with O => None | S p => Some p end) in
  match o with
  | Returned a => exists k, (attempt <= k)%nat /\ func k = Some a /\
                  (forall j, (j < k)%nat -> func j = None) /\
                  (Z.of_nat k <= max_retries)%Z /\ List.length ds = (k - attempt)%nat
  | Raised i => Z.of_nat i = max_retries /\ (forall j, (j <= i)%nat -> func j = None) /\
                List.length ds = (i - attempt)%nat
  | RaisedNone => (max_retries < 0)%Z /\ ds = []
  | SleepRaised i => (attempt <= i)%nat /\ (Z.of_nat i < max_retries)%Z /\
                     (forall j, (j <= i)%nat -> func j = None) /\
                     List.length ds = (i - attempt)%nat
  end.
Proof.
  pose proof (Z.max_spec 0 (max_retries + 1)) as Hmax.
  revert attempt delay.
  induction remaining as [|r IH]; intros attempt delay Hinv Hprev.
  - destruct attempt as [|p]; simpl.
    + split; [zl|reflexivity].
    + split; [zl|]. split; [|zl]. intros j Hj. apply Hprev. zl.
  - cbn [backoff_loop]. destruct (func attempt) as [a|] eqn:Ef.
    + exists attempt. repeat split; try assumption; try zl.
    + assert (Hprev' : forall j, (j < S attempt)%nat -> func j = None).
      { intros j Hj. destruct (Nat.eq_dec j attempt) as [->|Hne]; [exact Ef|apply Hprev; zl]. }
      assert (Hinv' : (Z.of_nat (S attempt + r) = Z.max 0 (max_retries + 1))%Z) by zl.
      destruct (Z.of_nat attempt <? max_retries)%Z eqn:Elt.
      * apply Z.ltb_lt in Elt.
        destruct (sleep_ok sleep_limit delay).
        2: { repeat split; try zl. intros j Hj. apply Hprev'. zl. }
        specialize (IH (S attempt) (py_min (delay * exponential_base) max_delay) Hinv' Hprev').
        destruct (backoff_loop _ _ _ _ _ (S attempt) r _ _) as [o ds].
        destruct o as [a|i| |i]; cbn [List.length].
        -- destruct IH as (k & Hk & H1 & H2 & H3 & H4). exists k. repeat split; auto; zl.
        -- destruct IH as (H1 & H2 & H3). repeat split; auto; zl.
        -- destruct IH as [H1 _]. zl.
        -- destruct IH as (H0 & H1 & H2 & H3). repeat split; auto; zl.
      * apply Z.ltb_ge in Elt.
        specialize (IH (S attempt) delay Hinv' Hprev').
        destruct (backoff_loop _ _ _ _ _ (S attempt) r _ _) as [o ds].
        destruct o as [a|i| |i].
        -- destruct IH as (k & Hk & H1 & H2 & H3 & H4). zl.
        -- destruct IH as (H1 & H2 & H3). repeat split; auto; zl.
        -- exact IH.
        -- destruct IH as (H0 & H1 & H2 & H3). zl.
Qed.

(** A call of a [retry_with_backoff] wrapper makes at most
    [max_retries + 1] attempts. It returns the first successful result,
    after a sleep for each failed attempt before it. When every attempt
    fails, it raises the exception of attempt [max_retries], after
    [max_retries] sleeps. When [max_retries] is negative, it makes no
    attempt and ends in [raise None]. When [time.sleep] raises after a
    failed attempt [i < max_retries], that error propagates after the [i]
    sleeps before it, and no further attempt is made. *)
Theorem retry_with_backoff_attempts (initial_delay : Q) :
  let '(o, ds) := retry_with_backoff func sleep_limit max_retries max_delay exponential_base
                    initial_delay in
  match o with
  | Returned a => exists k, func k = Some a /\ (forall j, (j < k)%nat -> func j = None) /\
                  (Z.of_nat k <= max_retries)%Z /\ List.length ds = k
  | Raised i => Z.of_nat i = max_retries /\ (forall j, (j <= i)%nat -> func j = None) /\
                List.length ds = i
  | RaisedNone => (max_retries < 0)%Z /\ ds = []
  | SleepRaised i => (Z.of_nat i < max_retries)%Z /\ (forall j, (j <= i)%nat -> func j = None) /\
                     List.length ds = i
  end.
Proof.
  unfold retry_with_backoff.
  pose proof (backoff_loop_calls (Z.to_nat (max_retries + 1)) 0 initial_delay) as H.
  cbn [Nat.add] in H. specialize (H ltac:(lia) ltac:(intros; lia)).
  destruct (backoff_loop _ _ _ _ _ _ _ _ _) as [o ds].
  destruct o as [a|i| |i].
  - destruct H as (k & _ & H1 & H2 & H3 & H4). exists k. rewrite Nat.sub_0_r in H4. auto.
  - rewrite Nat.sub_0_r in H. exact H.
  - exact H.
  - rewrite Nat.sub_0_r in H. destruct H as (_ & H). exact H.
Qed.

End Calls.

Lemma py_min_ge (a b x : Q) : x <= a -> x <= b -> x <= py_min a b.
Proof. unfold py_min. destruct (Qlt_le_dec b a); auto. Qed.

Lemma backoff_loop_delays {A : Type} (func : nat -> option A) (sleep_limit : Q)
    (max_retries : Z) (max_delay exponential_base lo : Q) (remaining attempt : nat)
    (delay : Q) last :
  0 <= lo -> lo <= delay <= max_delay -> 1 <= exponential_base ->
  let ds := snd (backoff_loop func sleep_limit max_retries max_delay exponential_base
                   attempt remaining delay last) in
  Sorted Qle ds /\ HdRel Qle delay ds /\ Forall (fun x => lo <= x <= max_delay) ds.
Proof.
  intros H0 Hd Hb. cbv zeta. revert attempt delay last Hd.
  induction remaining as [|r IH]; intros attempt delay last [Hd1 Hd2].
  - destruct last; simpl; repeat constructor.
  - cbn [backoff_loop]. destruct (func attempt); [simpl; repeat constructor|].
    destruct (Z.of_nat attempt <? max_retries)%Z; [|apply IH; split; assumption].
    destruct (sleep_ok sleep_limit delay); [|simpl; repeat constructor].
    set (d' := py_min (delay * exponential_base) max_delay).
    assert (Hd' : delay <= d').
    { apply py_min_ge; [|exact Hd2].
      rewrite <- (Qmult_1_r delay) at 1. rewrite !(Qmult_comm delay).
      apply Qmult_le_compat_r; [exact Hb|]. apply (Qle_trans _ lo); assumption. }
    assert (Hd'2 : d' <= max_delay) by apply UtilsProofs.py_min_le_r.
    specialize (IH (S attempt) d' (Some attempt) (conj (Qle_trans _ _ _ Hd1 Hd') Hd'2)).
    destruct (backoff_loop _ _ _ _ _ (S attempt) r d' (Some attempt)) as [o ds].
    simpl snd in *. destruct IH as (Hs & Hh & Hf).
    split; [|split].
    + constructor; [exact Hs|]. inversion Hh; subst; constructor.
      apply (Qle_trans _ d'); assumption.
    + constructor. apply Qle_refl.
    + constructor; [split; assumption|exact Hf].
Qed.

(** When [0 <= initial_delay <= max_delay] and [exponential_base >= 1],
    the delays a [retry_with_backoff] wrapper sleeps are non-decreasing, and
    each lies between [initial_delay] and [max_delay]. *)
Theorem retry_with_backoff_delays {A : Type} (func : nat -> option A) (sleep_limit : Q)
    (max_retries : Z) (initial_delay max_delay exponential_base : Q)
    (Hd : 0 <= initial_delay <= max_delay) (Hb : 1 <= exponential_base) :
  let ds := snd (retry_with_backoff func sleep_limit max_retries max_delay exponential_base
                   initial_delay) in
  Sorted Qle ds /\ Forall (fun x => initial_delay <= x <= max_delay) ds.
Proof.
  cbv zeta. unfold retry_with_backoff.
  destruct Hd as [H0 H1].
  destruct (backoff_loop_delays func sleep_limit max_retries max_delay exponential_base
              initial_delay (Z.to_nat (max_retries + 1)) 0 initial_delay None H0
              (conj (Qle_refl _) H1) Hb)
    as (Hs & _ & Hf).
  split; assumption.
Qed.

Lemma backoff_loop_sleeps_ok {A : Type} (func : nat -> option A) (sleep_limit : Q)
    (max_retries : Z) (max_delay exponential_base : Q) (remaining attempt : nat)
    (delay : Q) last :
  max_delay <= sleep_limit -> 0 <= exponential_base -> 0 <= delay <= max_delay ->
  forall i, fst (backoff_loop func sleep_limit max_retries max_delay exponential_base
                   attempt remaining delay last) <> SleepRaised i.
Proof.
  intros Hl Hb. revert attempt delay last.
  induction remaining as [|r IH]; intros attempt delay last [Hd1 Hd2] i.
  - destruct last; discriminate.
  - cbn [backoff_loop]. destruct (func attempt); [discriminate|].
    destruct (Z.of_nat attempt <? max_retries)%Z; [|apply IH; split; assumption].
    assert (Hs : sleep_ok sleep_limit delay = true).
    { unfold sleep_ok. apply andb_true_iff. split; apply Qle_bool_iff; [exact Hd1|].
      apply (Qle_trans _ max_delay); assumption. }
    rewrite Hs.
    assert (Hd' : 0 <= py_min (delay * exponential_base) max_delay <= max_delay).
    { split; [apply py_min_ge; [apply Qmult_le_0_compat; assumption|]|apply UtilsProofs.py_min_le_r].
      apply (Qle_trans _ delay); assumption. }
    specialize (IH (S attempt) _ (Some attempt) Hd' i).
    destruct (backoff_loop _ _ _ _ _ (S attempt) r _ _) as [o ds]. exact IH.
Qed.

(** When [0 <= initial_delay <= max_delay <= sleep_limit] and
    [exponential_base >= 0], no [time.sleep] of a [retry_with_backoff]
    wrapper raises: every delay stays in [0, max_delay]. *)
Theorem retry_with_backoff_sleeps_ok {A : Type} (func : nat -> option A) (sleep_limit : Q)
    (max_retries : Z) (initial_delay max_delay exponential_base : Q)
    (Hd : 0 <= initial_delay <= max_delay) (Hl : max_delay <= sleep_limit)
    (Hb : 0 <= exponential_base) :
  forall i, fst (retry_with_backoff func sleep_limit max_retries max_delay exponential_base
                   initial_delay) <> SleepRaised i.
Proof.
  unfold retry_with_backoff. apply backoff_loop_sleeps_ok; assumption.
Qed.

Lemma retry_with_backoff_delays_witness :
  (0 <= 1 <= 60 /\ 1 <= 2) /\
  let ds := snd (retry_with_backoff (fun k => if Nat.ltb k 5 then @None unit else Some tt)
                   9200000000 3%Z 60 2 1) in
  Sorted Qle ds /\ Forall (fun x => 1 <= x <= 60) ds.
Proof.
  assert (H : 0 <= 1 <= 60 /\ 1 <= 2).
  { split; [split|]; apply Qle_bool_iff; vm_compute; reflexivity. }
  split; [exact H|].
  apply (retry_with_backoff_delays _ 9200000000 3%Z 1 60 2 (proj1 H) (proj2 H)).
Defined.

Lemma retry_with_backoff_sleeps_ok_witness :
  ((0 <= 1 <= 60) /\ 60 <= 9200000000 /\ 0 <= 2) /\
  forall i, fst (retry_with_backoff (fun k => if Nat.ltb k 2 then @None unit else Some tt)
                   9200000000 3%Z 60 2 1) <> SleepRaised i.
Proof.
  assert (H : (0 <= 1 <= 60) /\ 60 <= 9200000000 /\ 0 <= 2).
  { split; [split|split]; apply Qle_bool_iff; vm_compute; reflexivity. }
  split; [exact H|].
  destruct H as (H1 & H2 & H3).
  apply (retry_with_backoff_sleeps_ok _ 9200000000 3%Z 1 60 2 H1 H2 H3).
Defined.

End BackoffProofs.

Module ReporterProofs.
Import Ranker Reporter.
Local Open Scope R_scope.





End ReporterProofs.
